(** * BoxoLogy container viewer: packing-result interpreter and fallback layout

    A shallow embedding of the placement logic of the React component
    [ThreeJsStaticOptimized], which exists in two versions in the repository:

    - the version with the four-way interpretation search
      (module [Resolver] below), and
    - the version under [frontend/src/components], which clamps every
      packed item unconditionally (module [Shipped] below).

    Both versions share the unit conversion, the container defaulting, the
    position parser and the greedy shelf loop.

    Numbers.  JavaScript numbers are embedded as exact rationals [Q]; the
    results are therefore stated up to [==] where arithmetic is involved.
    [Number(v)] is an input of the model: [Some q] for a finite number and
    [None] for [NaN].  Infinite values and rounding are outside the model. *)

From Stdlib Require Import QArith Qabs Qround Lqa ZArith Lia List String Bool.
From Stdlib Require Import Setoid Morphisms.
From Stdlib Require Import DecimalString.
Import ListNotations.
Open Scope string_scope.
Open Scope list_scope.
Open Scope Q_scope.

(* ================================================================== *)
(** ** JavaScript numbers *)

(** The value of [Number(v)]: [None] stands for [NaN]. *)
Definition JsNumber : Type := option Q.

(** [Number(v) || d]: the default [d] replaces [NaN] and [0]. *)
Definition orElse (n : JsNumber) (d : Q) : Q :=
  match n with
  | Some q => if Qeq_bool q 0 then d else q
  | None => d
  end.

(** [a ?? b] on a possibly absent property. *)
Definition nullish {A : Type} (a : option A) (b : A) : A :=
  match a with
  | Some v => v
  | None => b
  end.

(** [a < b] and [a > b] as the tests of the source. *)
Definition Qltb (a b : Q) : bool := negb (Qle_bool b a).
Definition Qgtb (a b : Q) : bool := negb (Qle_bool a b).

Definition Math_max (a b : Q) : Q := if Qle_bool a b then b else a.
Definition Math_min (a b : Q) : Q := if Qle_bool a b then a else b.

(** A triple [[x, y, z]]. *)
Definition Vec3 : Type := (Q * Q * Q)%type.

Definition vx (v : Vec3) : Q := fst (fst v).
Definition vy (v : Vec3) : Q := snd (fst v).
Definition vz (v : Vec3) : Q := snd v.

(** Component-wise equality of triples as rationals. *)
Definition Vec3_eq (a b : Vec3) : Prop :=
  vx a == vx b /\ vy a == vy b /\ vz a == vz b.

(* ================================================================== *)
(** ** Unit normalizer *)

(** [convertToMeters(value, unit = "m")]; [None] is an omitted or
    [undefined] argument, which takes the default ["m"]. *)
Definition convertToMeters (value : Q) (unit : option string) : Q :=
  let unit := nullish unit "m" in
  if String.eqb unit "cm" then value / 100
  else if String.eqb unit "mm" then value / 1000
  else if String.eqb unit "in" then value * 0.0254
  else value.

(* ================================================================== *)
(** ** Container *)

(** The prop [containerDimensions]; each dimension is given by the value of
    [Number(...)] on the string the form holds. *)
Record ContainerDim : Type := {
  cd_length : JsNumber;
  cd_width : JsNumber;
  cd_height : JsNumber;
  cd_unit : option string
}.

(** The three constants [containerLength], [containerWidth] and
    [containerHeight] of the effect. *)
Record Container : Type := {
  containerLength : Q;
  containerWidth : Q;
  containerHeight : Q
}.

Definition contL (c : ContainerDim) : Q :=
  convertToMeters (orElse (cd_length c) 0) (Some (nullish (cd_unit c) "m")).
Definition contW (c : ContainerDim) : Q :=
  convertToMeters (orElse (cd_width c) 0) (Some (nullish (cd_unit c) "m")).
Definition contH (c : ContainerDim) : Q :=
  convertToMeters (orElse (cd_height c) 0) (Some (nullish (cd_unit c) "m")).

Definition container (c : ContainerDim) : Container :=
  {| containerLength := if Qltb 0 (contL c) then contL c else 2;
     containerWidth := if Qltb 0 (contW c) then contW c else 1.5;
     containerHeight := if Qltb 0 (contH c) then contH c else 1.5 |}.

Definition maxDim (C : Container) : Q :=
  Math_max (Math_max (containerLength C) (containerWidth C)) (containerHeight C).

Definition targetMax : Q := 8.

Definition sceneScale (C : Container) : Q :=
  if Qltb 0 (maxDim C) then targetMax / maxDim C else 1.

(* ================================================================== *)
(** ** Packed items and their raw positions *)

(** The [position] of a packed item, typed [any] in the source.
    - [PosFalsy]: [undefined], [null] or another falsy value;
    - [PosArray elems]: an array, each element given by its [Number(...)];
    - [PosObject x y z i0 i1 i2]: another object; a property is [None] when
      it is [undefined] or [null], otherwise [Some] of its [Number(...)];
      [i0], [i1], [i2] are the properties ["0"], ["1"], ["2"];
    - [PosOther]: a truthy value that is not an object. *)
Inductive Position : Type :=
| PosFalsy
| PosArray (elems : list JsNumber)
| PosObject (x y z i0 i1 i2 : option JsNumber)
| PosOther.

Record ItemDimensions : Type := {
  dim_length : JsNumber;
  dim_width : JsNumber;
  dim_height : JsNumber
}.

Record PackedItemData : Type := {
  item_name : string;
  item_position : Position;
  item_dimensions : ItemDimensions
}.

(** The object [{ l, w, h }] handed to an interpretation. *)
Record Dims : Type := {
  dims_l : Q;
  dims_w : Q;
  dims_h : Q
}.

Definition parsePositionRaw (pos : Position) : Vec3 :=
  match pos with
  | PosFalsy => (0, 0, 0)
  | PosArray elems =>
      if (3 <=? List.length elems)%nat then
        (orElse (nth 0 elems None) 0,
         orElse (nth 1 elems None) 0,
         orElse (nth 2 elems None) 0)
      else
        (* a short array is an object without [x], [y], [z] *)
        (orElse (nullish (nth_error elems 0) (Some 0)) 0,
         orElse (nullish (nth_error elems 1) (Some 0)) 0,
         orElse (nullish (nth_error elems 2) (Some 0)) 0)
  | PosObject x y z i0 i1 i2 =>
      (orElse (nullish x (nullish i0 (Some 0))) 0,
       orElse (nullish y (nullish i1 (Some 0))) 0,
       orElse (nullish z (nullish i2 (Some 0))) 0)
  | PosOther => (0, 0, 0)
  end.

(* ================================================================== *)
(** ** Scene objects *)

(** A box mesh: the size of its geometry, its colour and the position of
    its centre, all in scene coordinates.  The other fields of the material
    (roughness, metalness, transparency and opacity) are not part of the
    model: no statement below is about them. *)
Record Mesh : Type := {
  geometry : Vec3;
  color : string;
  meshPosition : Vec3
}.

(** What one loop iteration adds to the group: the mesh, together with the
    minimum corner and the dimensions the iteration held in its local
    variables when it built the mesh. *)
Record Placed : Type := {
  minCorner : Vec3;
  dims : Dims;
  mesh : Mesh
}.

Definition colorList : list string :=
  ["#58A6FF"; "#6BCB77"; "#FFD93D"; "#FF6B6B"; "#9D5CFF"; "#F0A500"; "#4D96FF"].

(** [colorList[idx % colorList.length]] *)
Definition colorAt (idx : nat) : string :=
  nth (idx mod List.length colorList) colorList "".

(** [xs.forEach((x, idx) => ...)], collecting what each call adds. *)
Fixpoint forEachFrom {A B : Type} (f : A -> nat -> B) (idx : nat) (xs : list A)
  : list B :=
  match xs with
  | [] => []
  | x :: rest => f x idx :: forEachFrom f (S idx) rest
  end.

Definition forEach {A B : Type} (f : A -> nat -> B) (xs : list A) : list B :=
  forEachFrom f 0 xs.

(* ================================================================== *)
(** ** Fallback greedy placement (the same loop in both versions) *)

Record BoxDim : Type := {
  box_length : JsNumber;
  box_width : JsNumber;
  box_height : JsNumber;
  box_weight : string;
  box_quantity : JsNumber;
  box_rotation : bool;
  box_unit : string
}.

Record Instance : Type := {
  inst_l : Q;
  inst_w : Q;
  inst_h : Q;
  inst_idx : nat
}.

(** The body of [boxDimensions.forEach((b, ix) => ...)]: the instances one
    box pushes. *)
Definition pushInstances (b : BoxDim) (ix : nat) : list Instance :=
  let qty := Z.max 1 (Qfloor (orElse (box_quantity b) 1)) in
  let L := convertToMeters (orElse (box_length b) 0.1) (Some (box_unit b)) in
  let W := convertToMeters (orElse (box_width b) 0.1) (Some (box_unit b)) in
  let H := convertToMeters (orElse (box_height b) 0.1) (Some (box_unit b)) in
  repeat {| inst_l := L; inst_w := W; inst_h := H; inst_idx := ix |}
         (Z.to_nat qty).

Definition instances (boxDimensions : list BoxDim) : list Instance :=
  List.concat (forEach pushInstances boxDimensions).

Definition padding : Q := 0.01.

(** The three mutable variables of the loop. *)
Record Cursor : Type := {
  cursorX : Q;
  cursorZ : Q;
  layerHeight : Q
}.

Definition cursor0 : Cursor :=
  {| cursorX := 0; cursorZ := 0; layerHeight := 0 |}.

(** The first [if] of the loop body. *)
Definition wrapRow (C : Container) (cur : Cursor) (it : Instance) : Cursor :=
  if Qgtb (cursorX cur + inst_l it) (containerLength C) then
    {| cursorX := 0;
       cursorZ := cursorZ cur + (layerHeight cur + padding);
       layerHeight := 0 |}
  else cur.

(** [for (const it of instances) { ... }]; the [break] ends the list. *)
Fixpoint shelfLoop (C : Container) (cur : Cursor) (its : list Instance)
  : list Placed :=
  match its with
  | [] => []
  | it :: rest =>
      let cur := wrapRow C cur it in
      if Qgtb (cursorZ cur + inst_w it) (containerWidth C) then []
      else
        let sceneScale := sceneScale C in
        let centerX :=
          (cursorX cur + inst_l it / 2 - containerLength C / 2) * sceneScale in
        let centerY := (inst_h it / 2) * sceneScale in
        let centerZ :=
          (cursorZ cur + inst_w it / 2 - containerWidth C / 2) * sceneScale in
        {| minCorner := (cursorX cur, 0, cursorZ cur);
           dims := {| dims_l := inst_l it; dims_w := inst_w it;
                      dims_h := inst_h it |};
           mesh := {| geometry := (inst_l it * sceneScale,
                                   inst_h it * sceneScale,
                                   inst_w it * sceneScale);
                      color := "#9DD3FF";
                      meshPosition := (centerX, centerY, centerZ) |} |}
        :: shelfLoop C
             {| cursorX := cursorX cur + (inst_l it + padding);
                cursorZ := cursorZ cur;
                layerHeight := Math_max (layerHeight cur) (inst_w it) |}
             rest
  end.

Definition fallbackGreedy (C : Container) (boxDimensions : list BoxDim)
  : list Placed :=
  shelfLoop C cursor0 (instances boxDimensions).

(** What the effect leaves behind: the console messages and the group of
    boxes added to the scene. *)
Inductive ConsoleMessage (R : Type) : Type :=
| ConsoleInfo (name : string)
| ConsoleWarn (results : list R).

Arguments ConsoleInfo {R} name.
Arguments ConsoleWarn {R} results.

Record Scene (R : Type) : Type := {
  console : list (ConsoleMessage R);
  group : list Placed
}.

Arguments console {R} s.
Arguments group {R} s.

(* ================================================================== *)
(** ** The version with the interpretation search *)

Module Resolver.

Definition Interpretation : Type := Vec3 -> Dims -> Vec3.

Record ValidationResult : Type := {
  vr_ok : bool;
  vr_overflowCount : nat
}.

(** The condition of the [if] inside the validation loop. *)
Definition overflows (C : Container) (interpretationFn : Interpretation)
           (it : PackedItemData) : bool :=
  let raw := parsePositionRaw (item_position it) in
  let l := orElse (dim_length (item_dimensions it)) 0 in
  let w := orElse (dim_width (item_dimensions it)) 0 in
  let h := orElse (dim_height (item_dimensions it)) 0 in
  let p := interpretationFn raw {| dims_l := l; dims_w := w; dims_h := h |} in
  let minX := vx p in
  let minY := vy p in
  let minZ := vz p in
  let maxX := vx p + l in
  let maxY := vy p + h in
  let maxZ := vz p + w in
  (* the tolerance [1e-9], written out *)
  Qltb minX (- 0.000000001) ||
  Qltb minY (- 0.000000001) ||
  Qltb minZ (- 0.000000001) ||
  Qgtb maxX (containerLength C + 0.000000001) ||
  Qgtb maxY (containerHeight C + 0.000000001) ||
  Qgtb maxZ (containerWidth C + 0.000000001).

Definition validateInterpretation (C : Container)
           (items : list PackedItemData) (interpretationFn : Interpretation)
  : ValidationResult :=
  let overflowCount :=
    fold_left
      (fun n it => if overflows C interpretationFn it then S n else n)
      items 0%nat in
  {| vr_ok := Nat.eqb overflowCount 0; vr_overflowCount := overflowCount |}.

Definition asMinCorner : Interpretation :=
  fun raw _dims => (vx raw, vy raw, vz raw).

Definition asCenter : Interpretation :=
  fun raw dims =>
    (vx raw - dims_l dims / 2, vy raw - dims_h dims / 2,
     vz raw - dims_w dims / 2).

Definition asMinCornerSwapXZ : Interpretation :=
  fun raw _dims => (vz raw, vy raw, vx raw).

Definition asCenterSwapXZ : Interpretation :=
  fun raw dims =>
    (vz raw - dims_l dims / 2, vy raw - dims_h dims / 2,
     vx raw - dims_w dims / 2).

Record Candidate : Type := {
  cand_fn : Interpretation;
  cand_name : string
}.

Definition interpretations : list Candidate :=
  [ {| cand_fn := asMinCorner; cand_name := "min-corner (x=length,z=width)" |};
    {| cand_fn := asCenter; cand_name := "center (x=length,z=width)" |};
    {| cand_fn := asMinCornerSwapXZ; cand_name := "min-corner swapped X/Z" |};
    {| cand_fn := asCenterSwapXZ; cand_name := "center swapped X/Z" |} ].

Record Result : Type := {
  res_name : string;
  res_fn : Interpretation;
  res_ok : bool;
  res_overflowCount : nat
}.

Definition results (C : Container) (packedItemsData : list PackedItemData)
  : list Result :=
  map (fun it =>
         let res := validateInterpretation C packedItemsData (cand_fn it) in
         {| res_name := cand_name it; res_fn := cand_fn it;
            res_ok := vr_ok res; res_overflowCount := vr_overflowCount res |})
      interpretations.

Definition okInterpretation (C : Container)
           (packedItemsData : list PackedItemData) : option Result :=
  find res_ok (results C packedItemsData).

(** The body of the [forEach] of the validated branch. *)
Definition placeValidated (C : Container) (fn : Interpretation)
           (item : PackedItemData) (idx : nat) : Placed :=
  let sceneScale := sceneScale C in
  let l := orElse (dim_length (item_dimensions item)) 0.1 in
  let w := orElse (dim_width (item_dimensions item)) 0.1 in
  let h := orElse (dim_height (item_dimensions item)) 0.1 in
  let raw := parsePositionRaw (item_position item) in
  let p := fn raw {| dims_l := l; dims_w := w; dims_h := h |} in
  let px := vx p in
  let py := vy p in
  let pz := vz p in
  let centerX := (px + l / 2 - containerLength C / 2) * sceneScale in
  let centerY := (py + h / 2) * sceneScale in
  let centerZ := (pz + w / 2 - containerWidth C / 2) * sceneScale in
  {| minCorner := (px, py, pz);
     dims := {| dims_l := l; dims_w := w; dims_h := h |};
     mesh := {| geometry := (l * sceneScale, h * sceneScale, w * sceneScale);
                color := colorAt idx;
                meshPosition := (centerX, centerY, centerZ) |} |}.

(** The body of the [forEach] of the branch that clamps. *)
Definition placeClamped (C : Container) (item : PackedItemData) (idx : nat)
  : Placed :=
  let sceneScale := sceneScale C in
  let l := orElse (dim_length (item_dimensions item)) 0.1 in
  let w := orElse (dim_width (item_dimensions item)) 0.1 in
  let h := orElse (dim_height (item_dimensions item)) 0.1 in
  let raw := parsePositionRaw (item_position item) in
  let px := vx raw in
  let py := vy raw in
  let pz := vz raw in
  let px := Math_max 0 px in
  let py := Math_max 0 py in
  let pz := Math_max 0 pz in
  let px := if Qgtb (px + l) (containerLength C)
            then Math_max 0 (containerLength C - l) else px in
  let py := if Qgtb (py + h) (containerHeight C)
            then Math_max 0 (containerHeight C - h) else py in
  let pz := if Qgtb (pz + w) (containerWidth C)
            then Math_max 0 (containerWidth C - w) else pz in
  let centerX := (px + l / 2 - containerLength C / 2) * sceneScale in
  let centerY := (py + h / 2) * sceneScale in
  let centerZ := (pz + w / 2 - containerWidth C / 2) * sceneScale in
  {| minCorner := (px, py, pz);
     dims := {| dims_l := l; dims_w := w; dims_h := h |};
     mesh := {| geometry := (l * sceneScale, h * sceneScale, w * sceneScale);
                color := colorAt idx;
                meshPosition := (centerX, centerY, centerZ) |} |}.

(** The branch [packedItemsData && packedItemsData.length > 0]. *)
Definition resolve (C : Container) (packedItemsData : list PackedItemData)
  : Scene Result :=
  let results := results C packedItemsData in
  match find res_ok results with
  | Some okInterpretation =>
      {| console := [ConsoleInfo (res_name okInterpretation)];
         group := forEach (placeValidated C (res_fn okInterpretation))
                          packedItemsData |}
  | None =>
      {| console := [ConsoleWarn results];
         group := forEach (placeClamped C) packedItemsData |}
  end.

(** The part of the effect that fills the scene with boxes. *)
Definition render (containerDimensions : ContainerDim)
           (boxDimensions : list BoxDim)
           (packedItemsData : option (list PackedItemData)) : Scene Result :=
  let C := container containerDimensions in
  match packedItemsData with
  | Some items =>
      if (0 <? List.length items)%nat then resolve C items
      else {| console := []; group := fallbackGreedy C boxDimensions |}
  | None => {| console := []; group := fallbackGreedy C boxDimensions |}
  end.

(** The overflow count the search records for one interpretation. *)
Definition overflowCountOf (C : Container) (items : list PackedItemData)
           (fn : Interpretation) : nat :=
  vr_overflowCount (validateInterpretation C items fn).

(** The flag of the output: the branch that clamps was taken. *)
Definition usedFallback (s : Scene Result) : bool :=
  existsb (fun m => match m with ConsoleWarn _ => true | _ => false end)
          (console s).

End Resolver.

(* ================================================================== *)
(** ** The version under [frontend/src/components] *)

Module Shipped.

(** The body of [boxes.forEach] in [createBoxesGroup]. *)
Definition placeBox (C : Container) (item : PackedItemData) (idx : nat)
  : Placed :=
  let sceneScale := sceneScale C in
  let l := orElse (dim_length (item_dimensions item)) 0.1 in
  let w := orElse (dim_width (item_dimensions item)) 0.1 in
  let h := orElse (dim_height (item_dimensions item)) 0.1 in
  let raw := parsePositionRaw (item_position item) in
  let px := vx raw in
  let py := vy raw in
  let pz := vz raw in
  let px := Math_max 0 (Math_min px (containerLength C - l)) in
  let py := Math_max 0 (Math_min py (containerHeight C - h)) in
  let pz := Math_max 0 (Math_min pz (containerWidth C - w)) in
  {| minCorner := (px, py, pz);
     dims := {| dims_l := l; dims_w := w; dims_h := h |};
     mesh := {| geometry := (l * sceneScale, h * sceneScale, w * sceneScale);
                color := colorAt idx;
                meshPosition :=
                  ((px + l / 2 - containerLength C / 2) * sceneScale,
                   (py + h / 2) * sceneScale,
                   (pz + w / 2 - containerWidth C / 2) * sceneScale) |} |}.

Definition createBoxesGroup (C : Container) (boxDimensions : list BoxDim)
           (boxes : option (list PackedItemData)) : list Placed :=
  match boxes with
  | Some items =>
      if (0 <? List.length items)%nat then forEach (placeBox C) items
      else fallbackGreedy C boxDimensions
  | None => fallbackGreedy C boxDimensions
  end.

(** [createBoxesGroup(packedItemsData ?? null)] *)
Definition render (containerDimensions : ContainerDim)
           (boxDimensions : list BoxDim)
           (packedItemsData : option (list PackedItemData)) : list Placed :=
  createBoxesGroup (container containerDimensions) boxDimensions
                   packedItemsData.

End Shipped.

Import Resolver.

(* ================================================================== *)
(** ** Concrete inputs used in the scenarios *)

(** A container given in metres. *)
Definition containerOfSize (l w h : Q) : ContainerDim :=
  {| cd_length := Some l; cd_width := Some w; cd_height := Some h;
     cd_unit := Some "m" |}.

(** A packed item with an array position [[x, y, z]] and dimensions
    [length], [width], [height]. *)
Definition packedItem (x y z : Q) (length width height : Q) : PackedItemData :=
  {| item_name := "item";
     item_position := PosArray [Some x; Some y; Some z];
     item_dimensions := {| dim_length := Some length; dim_width := Some width;
                           dim_height := Some height |} |}.

(** A box of the form, in metres. *)
Definition boxOfSize (length width height : Q) (quantity : Z) : BoxDim :=
  {| box_length := Some length; box_width := Some width;
     box_height := Some height; box_weight := "1";
     box_quantity := Some (inject_Z quantity); box_rotation := false;
     box_unit := "m" |}.

(* ================================================================== *)
(** ** Predicates used in the statements *)






(** The box of a placement lies in [0, length] x [0, height] x [0, width],
    with the tolerance of the validation on each bound. *)
Definition withinContainer (C : Container) (p : Placed) : Prop :=
  - 0.000000001 <= vx (minCorner p) /\
  - 0.000000001 <= vy (minCorner p) /\
  - 0.000000001 <= vz (minCorner p) /\
  vx (minCorner p) + dims_l (dims p) <= containerLength C + 0.000000001 /\
  vy (minCorner p) + dims_h (dims p) <= containerHeight C + 0.000000001 /\
  vz (minCorner p) + dims_w (dims p) <= containerWidth C + 0.000000001.

(** One axis of a clamped placement: [raw] is the coordinate read as a
    minimum corner, [corner] the coordinate used. *)
Definition clampedAxis (raw corner itemDim containerDim : Q) : Prop :=
  (itemDim <= containerDim -> 0 <= corner <= containerDim - itemDim) /\
  (containerDim < itemDim -> corner == 0) /\
  (0 <= raw <= containerDim - itemDim -> corner == raw).

(** The centre of the mesh follows from the minimum corner: centred on the
    length and on the width axis, measured from the floor on the height
    axis; the geometry is the scaled size. *)
Definition sceneMapped (C : Container) (p : Placed) : Prop :=
  Vec3_eq (meshPosition (mesh p))
          ((vx (minCorner p) + dims_l (dims p) / 2 - containerLength C / 2)
           * sceneScale C,
           (vy (minCorner p) + dims_h (dims p) / 2) * sceneScale C,
           (vz (minCorner p) + dims_w (dims p) / 2 - containerWidth C / 2)
           * sceneScale C) /\
  geometry (mesh p) =
  (dims_l (dims p) * sceneScale C, dims_h (dims p) * sceneScale C,
   dims_w (dims p) * sceneScale C).

(** An item with three positive dimensions whose raw position, read as a
    minimum corner, lies in [0, containerDim - itemDim] on each axis. *)
Definition fitsAsMinCorner (C : Container) (it : PackedItemData) : Prop :=
  exists l w h,
    dim_length (item_dimensions it) = Some l /\
    dim_width (item_dimensions it) = Some w /\
    dim_height (item_dimensions it) = Some h /\
    0 < l /\ 0 < w /\ 0 < h /\
    0 <= vx (parsePositionRaw (item_position it)) <= containerLength C - l /\
    0 <= vy (parsePositionRaw (item_position it)) <= containerHeight C - h /\
    0 <= vz (parsePositionRaw (item_position it)) <= containerWidth C - w.

(** Two boxes of the scene are the same box: same centre, same geometry,
    same colour. *)
Definition sameMesh (a b : Placed) : Prop :=
  Vec3_eq (meshPosition (mesh a)) (meshPosition (mesh b)) /\
  Vec3_eq (geometry (mesh a)) (geometry (mesh b)) /\
  color (mesh a) = color (mesh b).

(* ================================================================== *)
(** ** Inputs and outputs that are the same numbers

    Two rationals that are [==] stand for the same JavaScript number.  The
    relations below say that two inputs, or two outputs, are the same up to
    the way their numbers are written. *)

Definition JsNumber_eq (a b : JsNumber) : Prop :=
  match a, b with
  | Some x, Some y => x == y
  | None, None => True
  | _, _ => False
  end.

Definition property_eq (a b : option JsNumber) : Prop :=
  match a, b with
  | Some x, Some y => JsNumber_eq x y
  | None, None => True
  | _, _ => False
  end.

Inductive Position_eq : Position -> Position -> Prop :=
| PosFalsy_eq : Position_eq PosFalsy PosFalsy
| PosArray_eq (e1 e2 : list JsNumber) :
    Forall2 JsNumber_eq e1 e2 -> Position_eq (PosArray e1) (PosArray e2)
| PosObject_eq (x1 y1 z1 i1 j1 k1 x2 y2 z2 i2 j2 k2 : option JsNumber) :
    property_eq x1 x2 -> property_eq y1 y2 -> property_eq z1 z2 ->
    property_eq i1 i2 -> property_eq j1 j2 -> property_eq k1 k2 ->
    Position_eq (PosObject x1 y1 z1 i1 j1 k1) (PosObject x2 y2 z2 i2 j2 k2)
| PosOther_eq : Position_eq PosOther PosOther.

Definition PackedItemData_eq (a b : PackedItemData) : Prop :=
  item_name a = item_name b /\
  Position_eq (item_position a) (item_position b) /\
  JsNumber_eq (dim_length (item_dimensions a)) (dim_length (item_dimensions b)) /\
  JsNumber_eq (dim_width (item_dimensions a)) (dim_width (item_dimensions b)) /\
  JsNumber_eq (dim_height (item_dimensions a)) (dim_height (item_dimensions b)).

Definition ContainerDim_eq (a b : ContainerDim) : Prop :=
  JsNumber_eq (cd_length a) (cd_length b) /\
  JsNumber_eq (cd_width a) (cd_width b) /\
  JsNumber_eq (cd_height a) (cd_height b) /\
  cd_unit a = cd_unit b.

Definition Container_eq (a b : Container) : Prop :=
  containerLength a == containerLength b /\
  containerWidth a == containerWidth b /\
  containerHeight a == containerHeight b.

Definition Dims_eq (a b : Dims) : Prop :=
  dims_l a == dims_l b /\ dims_w a == dims_w b /\ dims_h a == dims_h b.

Definition Placed_eq (a b : Placed) : Prop :=
  Vec3_eq (minCorner a) (minCorner b) /\
  Dims_eq (dims a) (dims b) /\
  sameMesh a b.

(** An interpretation that does not depend on the way the numbers are
    written. *)
Definition respectsNumbers (fn : Interpretation) : Prop :=
  forall raw1 raw2 d1 d2,
    Vec3_eq raw1 raw2 -> Dims_eq d1 d2 -> Vec3_eq (fn raw1 d1) (fn raw2 d2).

(* ================================================================== *)
(** ** The container mesh and the boxes that are drawn *)

(** The size of [contGeometry], in scene coordinates. *)
Definition contGeometry (C : Container) : Vec3 :=
  (containerLength C * sceneScale C,
   containerHeight C * sceneScale C,
   containerWidth C * sceneScale C).

(** The position of [contMesh], which [wire] copies: a new mesh sits at the
    origin, and [position.y] is set to half the scaled height. *)
Definition contMeshPosition (C : Container) : Vec3 :=
  (0, (containerHeight C * sceneScale C) / 2, 0).

(** A box geometry is centred on the position of its mesh and reaches half
    of the absolute value of its size to either side, also when the size is
    negative: the least and the greatest corner of the box it occupies. *)
Definition boxLower (size position : Vec3) : Vec3 :=
  (vx position - Qabs (vx size) / 2, vy position - Qabs (vy size) / 2,
   vz position - Qabs (vz size) / 2).

Definition boxUpper (size position : Vec3) : Vec3 :=
  (vx position + Qabs (vx size) / 2, vy position + Qabs (vy size) / 2,
   vz position + Qabs (vz size) / 2).

(** The box of a mesh lies within the box of the container mesh. *)
Definition insideContainerMesh (C : Container) (m : Mesh) : Prop :=
  vx (boxLower (contGeometry C) (contMeshPosition C)) <=
  vx (boxLower (geometry m) (meshPosition m)) /\
  vx (boxUpper (geometry m) (meshPosition m)) <=
  vx (boxUpper (contGeometry C) (contMeshPosition C)) /\
  vy (boxLower (contGeometry C) (contMeshPosition C)) <=
  vy (boxLower (geometry m) (meshPosition m)) /\
  vy (boxUpper (geometry m) (meshPosition m)) <=
  vy (boxUpper (contGeometry C) (contMeshPosition C)) /\
  vz (boxLower (contGeometry C) (contMeshPosition C)) <=
  vz (boxLower (geometry m) (meshPosition m)) /\
  vz (boxUpper (geometry m) (meshPosition m)) <=
  vz (boxUpper (contGeometry C) (contMeshPosition C)).

(** On one axis the box drawn for a placement reaches from [corner] to
    [corner + dim], whichever of the two is the smaller: for a negative
    dimension the box lies before the corner.  Both ends lie in
    [- tol, containerDim + tol]. *)
Definition axisWithin (tol corner dim containerDim : Q) : Prop :=
  - tol <= corner /\ - tol <= corner + dim /\
  corner <= containerDim + tol /\ corner + dim <= containerDim + tol.

(** The box drawn for a placement lies in
    [0, length] x [0, height] x [0, width], without tolerance. *)
Definition insideContainer (C : Container) (p : Placed) : Prop :=
  axisWithin 0 (vx (minCorner p)) (dims_l (dims p)) (containerLength C) /\
  axisWithin 0 (vy (minCorner p)) (dims_h (dims p)) (containerHeight C) /\
  axisWithin 0 (vz (minCorner p)) (dims_w (dims p)) (containerWidth C).



(** The dimensions the placement loops read from an item. *)
Definition placementDims (item : PackedItemData) : Dims :=
  {| dims_l := orElse (dim_length (item_dimensions item)) 0.1;
     dims_w := orElse (dim_width (item_dimensions item)) 0.1;
     dims_h := orElse (dim_height (item_dimensions item)) 0.1 |}.

(** The dimensions of an instance of the fallback loop. *)
Definition instanceDims (it : Instance) : Dims :=
  {| dims_l := inst_l it; dims_w := inst_w it; dims_h := inst_h it |}.

(** What the cursor of the fallback layout ensures of an earlier box [p] and
    a later box [q]: the corner of [q] is at least the padding beyond the
    corner of [p] plus its dimension, along the length in the same row, or
    along the width. *)
Definition placedBefore (p q : Placed) : Prop :=
  (vz (minCorner q) == vz (minCorner p) /\
   vx (minCorner p) + dims_l (dims p) + padding <= vx (minCorner q)) \/
  vz (minCorner p) + dims_w (dims p) + padding <= vz (minCorner q).

(** A point [(x, z)] of the floor lies under the box drawn for [p]: on each
    axis between the corner and the corner plus the dimension, in either
    order. *)
Definition between (a b x : Q) : Prop := a <= x <= b \/ b <= x <= a.

Definition coversFloorPoint (p : Placed) (x z : Q) : Prop :=
  between (vx (minCorner p)) (vx (minCorner p) + dims_l (dims p)) x /\
  between (vz (minCorner p)) (vz (minCorner p) + dims_w (dims p)) z.

(** No point of the floor lies under both boxes. *)
Definition floorDisjoint (p q : Placed) : Prop :=
  forall x z, ~ (coversFloorPoint p x z /\ coversFloorPoint q x z).

(** On one axis, both ends of the first box lie at least the padding before
    both ends of the second. *)
Definition endsBefore (a da b db : Q) : Prop :=
  a + padding <= b /\ a + da + padding <= b /\
  a + padding <= b + db /\ a + da + padding <= b + db.

(** The box drawn for [p] ends at least the padding before the box drawn for
    [q] starts: along the length in the same row, or along the width. *)
Definition placedApart (p q : Placed) : Prop :=
  (vz (minCorner q) == vz (minCorner p) /\
   endsBefore (vx (minCorner p)) (dims_l (dims p))
              (vx (minCorner q)) (dims_l (dims q))) \/
  endsBefore (vz (minCorner p)) (dims_w (dims p))
             (vz (minCorner q)) (dims_w (dims q)).

(** The volume of a placed box. *)
Definition placedVolume (p : Placed) : Q :=
  dims_l (dims p) * dims_w (dims p) * dims_h (dims p).

(** Two boxes of the form that agree on what the fallback layout reads. *)
Definition sameLayoutFields (a b : BoxDim) : Prop :=
  box_length a = box_length b /\
  box_width a = box_width b /\
  box_height a = box_height b /\
  box_quantity a = box_quantity b /\
  box_unit a = box_unit b.

(* ================================================================== *)
(** ** The form around the viewer ([BoxUI.tsx]) *)

Module BoxUI.

(** A box of the form: the text fields hold what the user typed. *)
Record BoxDimensions : Type := {
  ui_length : string;
  ui_width : string;
  ui_height : string;
  ui_weight : string;
  ui_quantity : string;
  ui_rotation : bool;
  ui_collapsed : bool;
  ui_unit : string;
  ui_boxName : option string
}.

Record ContainerDimensions : Type := {
  uc_length : string;
  uc_width : string;
  uc_height : string;
  uc_maxCapacity : option string;
  uc_fit : option string;
  uc_unit : string
}.

(** The two sidebars; both are open in the initial state. *)
Record Sidebars : Type := {
  leftSideBar : bool;
  rightSideBar : bool
}.

Definition initialSidebars : Sidebars :=
  {| leftSideBar := true; rightSideBar := true |}.

Definition toggleLeftSidebar (st : Sidebars) : Sidebars :=
  let next := negb (leftSideBar st) in
  {| leftSideBar := next;
     rightSideBar := if next then false else rightSideBar st |}.

Definition toggleRightSidebar (st : Sidebars) : Sidebars :=
  let next := negb (rightSideBar st) in
  {| leftSideBar := if next then false else leftSideBar st;
     rightSideBar := next |}.

Inductive SidebarClick : Type := ClickLeft | ClickRight.

Definition click (st : Sidebars) (c : SidebarClick) : Sidebars :=
  match c with
  | ClickLeft => toggleLeftSidebar st
  | ClickRight => toggleRightSidebar st
  end.

(** The template [`Box ${n}`]. *)
Definition boxLabel (n : nat) : string :=
  "Box " ++ NilZero.string_of_uint (Nat.to_uint n).

(** The box [addBox] appends, named after the number of boxes there will
    be. *)
Definition newBox (n : nat) : BoxDimensions :=
  {| ui_length := ""; ui_width := ""; ui_height := ""; ui_weight := "";
     ui_quantity := "1"; ui_rotation := false; ui_collapsed := false;
     ui_unit := "m"; ui_boxName := Some (boxLabel n) |}.

Definition initialBoxes : list BoxDimensions := [newBox 1].

Definition addBox (prev : list BoxDimensions) : list BoxDimensions :=
  prev ++ [newBox (List.length prev + 1)].

(** [prev.map((box, i) => i === index ? { ...box, collapsed: !box.collapsed }
    : box)] *)
Definition toggleCollapse (index : nat) (prev : list BoxDimensions)
  : list BoxDimensions :=
  forEach (fun box i =>
             if Nat.eqb i index then
               {| ui_length := ui_length box; ui_width := ui_width box;
                  ui_height := ui_height box; ui_weight := ui_weight box;
                  ui_quantity := ui_quantity box;
                  ui_rotation := ui_rotation box;
                  ui_collapsed := negb (ui_collapsed box);
                  ui_unit := ui_unit box; ui_boxName := ui_boxName box |}
             else box)
          prev.

(** The keys of a box, and the type of the value each call of
    [updateBoxField] passes for a key. *)
Inductive BoxField : Type :=
| FLength | FWidth | FHeight | FWeight | FQuantity
| FRotation | FCollapsed | FUnit | FBoxName.

Definition fieldValue (field : BoxField) : Type :=
  match field with
  | FRotation | FCollapsed => bool
  | _ => string
  end.

(** [{ ...box, [field]: value }] *)
Definition setField (box : BoxDimensions) (field : BoxField)
  : fieldValue field -> BoxDimensions :=
  match field with
  | FLength => fun v =>
      {| ui_length := v; ui_width := ui_width box; ui_height := ui_height box;
         ui_weight := ui_weight box; ui_quantity := ui_quantity box;
         ui_rotation := ui_rotation box; ui_collapsed := ui_collapsed box;
         ui_unit := ui_unit box; ui_boxName := ui_boxName box |}
  | FWidth => fun v =>
      {| ui_length := ui_length box; ui_width := v; ui_height := ui_height box;
         ui_weight := ui_weight box; ui_quantity := ui_quantity box;
         ui_rotation := ui_rotation box; ui_collapsed := ui_collapsed box;
         ui_unit := ui_unit box; ui_boxName := ui_boxName box |}
  | FHeight => fun v =>
      {| ui_length := ui_length box; ui_width := ui_width box; ui_height := v;
         ui_weight := ui_weight box; ui_quantity := ui_quantity box;
         ui_rotation := ui_rotation box; ui_collapsed := ui_collapsed box;
         ui_unit := ui_unit box; ui_boxName := ui_boxName box |}
  | FWeight => fun v =>
      {| ui_length := ui_length box; ui_width := ui_width box;
         ui_height := ui_height box; ui_weight := v;
         ui_quantity := ui_quantity box;
         ui_rotation := ui_rotation box; ui_collapsed := ui_collapsed box;
         ui_unit := ui_unit box; ui_boxName := ui_boxName box |}
  | FQuantity => fun v =>
      {| ui_length := ui_length box; ui_width := ui_width box;
         ui_height := ui_height box; ui_weight := ui_weight box;
         ui_quantity := v;
         ui_rotation := ui_rotation box; ui_collapsed := ui_collapsed box;
         ui_unit := ui_unit box; ui_boxName := ui_boxName box |}
  | FRotation => fun v =>
      {| ui_length := ui_length box; ui_width := ui_width box;
         ui_height := ui_height box; ui_weight := ui_weight box;
         ui_quantity := ui_quantity box;
         ui_rotation := v; ui_collapsed := ui_collapsed box;
         ui_unit := ui_unit box; ui_boxName := ui_boxName box |}
  | FCollapsed => fun v =>
      {| ui_length := ui_length box; ui_width := ui_width box;
         ui_height := ui_height box; ui_weight := ui_weight box;
         ui_quantity := ui_quantity box;
         ui_rotation := ui_rotation box; ui_collapsed := v;
         ui_unit := ui_unit box; ui_boxName := ui_boxName box |}
  | FUnit => fun v =>
      {| ui_length := ui_length box; ui_width := ui_width box;
         ui_height := ui_height box; ui_weight := ui_weight box;
         ui_quantity := ui_quantity box;
         ui_rotation := ui_rotation box; ui_collapsed := ui_collapsed box;
         ui_unit := v; ui_boxName := ui_boxName box |}
  | FBoxName => fun v =>
      {| ui_length := ui_length box; ui_width := ui_width box;
         ui_height := ui_height box; ui_weight := ui_weight box;
         ui_quantity := ui_quantity box;
         ui_rotation := ui_rotation box; ui_collapsed := ui_collapsed box;
         ui_unit := ui_unit box; ui_boxName := Some v |}
  end.

Definition updateBoxField (index : nat) (field : BoxField)
           (value : fieldValue field) (prev : list BoxDimensions)
  : list BoxDimensions :=
  forEach (fun box i => if Nat.eqb i index then setField box field value
                        else box)
          prev.

(** [xs.filter((x, i) => keep(x, i))] *)
Fixpoint filterFrom {A : Type} (keep : A -> nat -> bool) (i : nat)
         (xs : list A) : list A :=
  match xs with
  | [] => []
  | x :: rest =>
      if keep x i then x :: filterFrom keep (S i) rest
      else filterFrom keep (S i) rest
  end.

Definition deleteBox (index : nat) (prev : list BoxDimensions)
  : list BoxDimensions :=
  filterFrom (fun _ i => negb (Nat.eqb i index)) 0 prev.

(** [a * b] on numbers that may be [NaN]. *)
Definition jsMul (a b : JsNumber) : JsNumber :=
  match a, b with
  | Some x, Some y => Some (x * y)
  | _, _ => None
  end.

(** The [convertToMeters] of this file has the same [switch]; here it may
    receive [NaN], which every branch returns as [NaN]. *)
Definition convertToMetersN (value : JsNumber) (unit : string) : JsNumber :=
  option_map (fun v => convertToMeters v (Some unit)) value.

(** [Number(x.toFixed(digits))]: [x] rounded to [digits] decimals, a half
    rounded away from zero. *)
Definition toFixed (digits : nat) (x : Q) : Q :=
  let scale := inject_Z (10 ^ Z.of_nat digits) in
  if Qle_bool 0 x then inject_Z (Qfloor (x * scale + (1 # 2))) / scale
  else - (inject_Z (Qfloor (- x * scale + (1 # 2))) / scale).

(** [isNaN(v) ? 0 : v] *)
Definition zeroIfNaN (v : JsNumber) : Q :=
  match v with
  | Some q => q
  | None => 0
  end.

(** The request of [handlePlan]. *)
Record Payload : Type := {
  container_length : JsNumber;
  container_width : JsNumber;
  container_height : JsNumber;
  bigger_first : bool;
  distribute_items : bool;
  rotation : bool;
  packing_strategy : string;
  verbose : bool;
  pl_box_name : list string;
  pl_box_length : list JsNumber;
  pl_box_width : list JsNumber;
  pl_box_height : list JsNumber;
  pl_box_weight : list JsNumber;
  pl_box_quantity : list JsNumber
}.

(** [b.boxName || "Box"] *)
Definition nameOrBox (name : option string) : string :=
  match name with
  | Some n => if String.eqb n "" then "Box" else n
  | None => "Box"
  end.

Section WithNumber.

(** The conversion [Number(s)] of a string by the runtime. *)
Variable Number : string -> JsNumber.

(** [Number(s || d)]: the empty string is the only falsy string. *)
Definition numberOr (s : string) (d : Q) : JsNumber :=
  if String.eqb s "" then Some d else Number s.

(** The volume one box adds to [totalVolume], before the test on [NaN]. *)
Definition boxVolume (box : BoxDimensions) : JsNumber :=
  let length := convertToMetersN (numberOr (ui_length box) 0) (ui_unit box) in
  let width := convertToMetersN (numberOr (ui_width box) 0) (ui_unit box) in
  let height := convertToMetersN (numberOr (ui_height box) 0) (ui_unit box) in
  let perPieceVolume := jsMul (jsMul length width) height in
  let qty := orElse (Number (ui_quantity box)) 1 in
  jsMul perPieceVolume (Some qty).

Definition boxWeight (box : BoxDimensions) : Q :=
  let qty := orElse (Number (ui_quantity box)) 1 in
  orElse (Number (ui_weight box)) 0 * qty.

(** The two accumulators after [boxDimensions.forEach]. *)
Definition totals (boxDimensions : list BoxDimensions) : Q * Q :=
  fold_left
    (fun acc box =>
       (fst acc + zeroIfNaN (boxVolume box), snd acc + boxWeight box))
    boxDimensions (0, 0).

Definition totalBoxVolume (boxDimensions : list BoxDimensions) : Q :=
  toFixed 6 (fst (totals boxDimensions)).

Definition totalBoxWeight (boxDimensions : list BoxDimensions) : Q :=
  toFixed 3 (snd (totals boxDimensions)).

Definition containerVolume (c : ContainerDimensions) : JsNumber :=
  let length := convertToMetersN (numberOr (uc_length c) 0) (uc_unit c) in
  let width := convertToMetersN (numberOr (uc_width c) 0) (uc_unit c) in
  let height := convertToMetersN (numberOr (uc_height c) 0) (uc_unit c) in
  option_map (toFixed 2) (jsMul (jsMul length width) height).

Definition payload (c : ContainerDimensions)
           (boxDimensions : list BoxDimensions) : Payload :=
  {| container_length := numberOr (uc_length c) 0;
     container_width := numberOr (uc_width c) 0;
     container_height := numberOr (uc_height c) 0;
     bigger_first :=
       match uc_fit c with
       | Some f => String.eqb f "BiggerFirst"
       | None => false
       end;
     distribute_items := false;
     rotation := false;
     packing_strategy :=
       if match uc_fit c with
          | Some f => String.eqb f "BiggerFirst"
          | None => false
          end
       then "best_fit" else "best_fit";
     verbose := false;
     pl_box_name := map (fun b => nameOrBox (ui_boxName b)) boxDimensions;
     pl_box_length := map (fun b => numberOr (ui_length b) 0) boxDimensions;
     pl_box_width := map (fun b => numberOr (ui_width b) 0) boxDimensions;
     pl_box_height := map (fun b => numberOr (ui_height b) 0) boxDimensions;
     pl_box_weight := map (fun b => numberOr (ui_weight b) 0) boxDimensions;
     pl_box_quantity := map (fun b => numberOr (ui_quantity b) 1)
                            boxDimensions |}.

(** The props the form hands to the viewer: the viewer applies [Number] to
    the text fields it reads. *)
Definition toBoxDim (box : BoxDimensions) : BoxDim :=
  {| box_length := Number (ui_length box);
     box_width := Number (ui_width box);
     box_height := Number (ui_height box);
     box_weight := ui_weight box;
     box_quantity := Number (ui_quantity box);
     box_rotation := ui_rotation box;
     box_unit := ui_unit box |}.

Definition toContainerDim (c : ContainerDimensions) : ContainerDim :=
  {| cd_length := Number (uc_length c);
     cd_width := Number (uc_width c);
     cd_height := Number (uc_height c);
     cd_unit := Some (uc_unit c) |}.

(** The boxes of the viewer the form renders: the component imported from
    [./ThreeJsStaticOptimized]. *)
Definition viewer (c : ContainerDimensions)
           (boxDimensions : list BoxDimensions)
           (packedItems : option (list PackedItemData)) : list Placed :=
  Shipped.render (toContainerDim c) (map toBoxDim boxDimensions) packedItems.

(** A box whose three dimensions are positive numbers and whose quantity is
    an integer of at least 1. *)
Definition wellFormed (box : BoxDimensions) : Prop :=
  exists l w h n,
    ui_length box <> "" /\ Number (ui_length box) = Some l /\ 0 < l /\
    ui_width box <> "" /\ Number (ui_width box) = Some w /\ 0 < w /\
    ui_height box <> "" /\ Number (ui_height box) = Some h /\ 0 < h /\
    Number (ui_quantity box) = Some (inject_Z n) /\ (1 <= n)%Z.

End WithNumber.

(** Two boxes that agree on what the request reads. *)
Definition sameRequestFields (a b : BoxDimensions) : Prop :=
  ui_length a = ui_length b /\ ui_width a = ui_width b /\
  ui_height a = ui_height b /\ ui_weight a = ui_weight b /\
  ui_quantity a = ui_quantity b /\ ui_boxName a = ui_boxName b.

End BoxUI.

(** The volume of an instance of the fallback layout, and a sum. *)
Definition instanceVolume (it : Instance) : Q :=
  inst_l it * inst_w it * inst_h it.

Definition sumQ (xs : list Q) : Q := fold_right Qplus 0 xs.

(** A conversion of decimal texts, for the instances of the statements:
    it reads ["1"], ["2"], ["3"] and ["0.5"], and nothing else. *)
Definition sampleNumber (s : string) : JsNumber :=
  if String.eqb s "1" then Some 1
  else if String.eqb s "2" then Some 2
  else if String.eqb s "3" then Some 3
  else if String.eqb s "0.5" then Some 0.5
  else if String.eqb s "" then Some 0
  else None.

(* ================================================================== *)
(** ** Basic facts on the comparisons *)

Lemma Qltb_true (a b : Q) : Qltb a b = true <-> a < b.
Proof.
  unfold Qltb. rewrite negb_true_iff. split; intro H.
  - apply Qnot_le_lt. intro Hle. apply Qle_bool_iff in Hle. congruence.
  - destruct (Qle_bool b a) eqn:E; [|reflexivity].
    apply Qle_bool_iff in E. lra.
Qed.

Lemma Qltb_false (a b : Q) : Qltb a b = false <-> b <= a.
Proof.
  unfold Qltb. rewrite negb_false_iff. apply Qle_bool_iff.
Qed.

Lemma Qgtb_true (a b : Q) : Qgtb a b = true <-> b < a.
Proof. apply (Qltb_true b a). Qed.

Lemma Qgtb_false (a b : Q) : Qgtb a b = false <-> a <= b.
Proof. apply (Qltb_false b a). Qed.

Lemma Math_max_cases (a b : Q) :
  (a <= b /\ Math_max a b = b) \/ (b < a /\ Math_max a b = a).
Proof.
  unfold Math_max. destruct (Qle_bool a b) eqn:E.
  - left. split; [now apply Qle_bool_iff | reflexivity].
  - right. split; [|reflexivity].
    apply Qnot_le_lt. intro H. apply Qle_bool_iff in H. congruence.
Qed.

Lemma Math_min_cases (a b : Q) :
  (a <= b /\ Math_min a b = a) \/ (b < a /\ Math_min a b = b).
Proof.
  unfold Math_min. destruct (Qle_bool a b) eqn:E.
  - left. split; [now apply Qle_bool_iff | reflexivity].
  - right. split; [|reflexivity].
    apply Qnot_le_lt. intro H. apply Qle_bool_iff in H. congruence.
Qed.

(* ================================================================== *)
(** ** Unit normalizer: the four cases *)

(** C7.  [convertToMeters] divides by 100 for ["cm"], by 1000 for ["mm"],
    multiplies by 0.0254 for ["in"], and returns the value unchanged for
    ["m"], for a missing unit and for every other string.  It is a total
    function: every pair of arguments has a result. *)
Theorem convertToMeters_cases (v : Q) :
  convertToMeters v (Some "cm") = v / 100 /\
  convertToMeters v (Some "mm") = v / 1000 /\
  convertToMeters v (Some "in") = v * 0.0254 /\
  convertToMeters v (Some "m") = v /\
  convertToMeters v None = v /\
  (forall u : string,
      u <> "cm" -> u <> "mm" -> u <> "in" -> convertToMeters v (Some u) = v) /\
  (forall u : option string, exists r : Q, convertToMeters v u = r).
Proof.
  repeat split; try reflexivity.
  - intros u Hcm Hmm Hin. unfold convertToMeters, nullish.
    apply String.eqb_neq in Hcm, Hmm, Hin.
    now rewrite Hcm, Hmm, Hin.
  - intro u. now exists (convertToMeters v u).
Qed.

(* ================================================================== *)
(** ** The container is never degenerate *)

Lemma default_or_positive (d fallback : Q) :
  0 < fallback -> 0 < (if Qltb 0 d then d else fallback).
Proof.
  intro Hf. destruct (Qltb 0 d) eqn:E; [now apply Qltb_true in E | exact Hf].
Qed.

Lemma container_dims_pos (c : ContainerDim) :
  0 < containerLength (container c) /\
  0 < containerWidth (container c) /\
  0 < containerHeight (container c).
Proof.
  unfold container; cbn [containerLength containerWidth containerHeight].
  repeat split; apply default_or_positive; reflexivity.
Qed.

Lemma maxDim_bounds (C : Container) :
  containerLength C <= maxDim C /\
  containerWidth C <= maxDim C /\
  containerHeight C <= maxDim C.
Proof.
  unfold maxDim.
  destruct (Math_max_cases (containerLength C) (containerWidth C))
    as [[H1 E1] | [H1 E1]]; rewrite E1;
    match goal with |- context [Math_max ?a ?b] =>
      destruct (Math_max_cases a b) as [[H2 E2] | [H2 E2]]; rewrite E2
    end; repeat split; lra.
Qed.

Lemma maxDim_pos (c : ContainerDim) : 0 < maxDim (container c).
Proof.
  pose proof (container_dims_pos c) as (HL & _ & _).
  pose proof (maxDim_bounds (container c)) as (H & _ & _). lra.
Qed.

Lemma sceneScale_eq (c : ContainerDim) :
  sceneScale (container c) = targetMax / maxDim (container c).
Proof.
  unfold sceneScale. pose proof (maxDim_pos c) as H.
  apply Qltb_true in H. now rewrite H.
Qed.

Lemma sceneScale_pos (c : ContainerDim) : 0 < sceneScale (container c).
Proof.
  rewrite sceneScale_eq. pose proof (maxDim_pos c) as H.
  unfold targetMax, Qdiv. apply Qmult_lt_0_compat; [reflexivity|].
  now apply Qinv_lt_0_compat.
Qed.

(* ================================================================== *)
(** ** Loops over the items *)

Lemma forEachFrom_length {A B : Type} (f : A -> nat -> B) (xs : list A) :
  forall idx, List.length (forEachFrom f idx xs) = List.length xs.
Proof.
  induction xs as [|x rest IH]; intro idx; cbn; [reflexivity|].
  now rewrite IH.
Qed.

Lemma forEachFrom_nth_error {A B : Type} (f : A -> nat -> B) (xs : list A) :
  forall idx k,
    nth_error (forEachFrom f idx xs) k =
    option_map (fun x => f x (idx + k)%nat) (nth_error xs k).
Proof.
  induction xs as [|x rest IH]; intros idx k.
  - destruct k; reflexivity.
  - destruct k as [|k]; cbn.
    + now rewrite Nat.add_0_r.
    + rewrite IH. now rewrite Nat.add_succ_r.
Qed.

Lemma forEach_In {A B : Type} (f : A -> nat -> B) (xs : list A) (p : B) :
  In p (forEach f xs) ->
  exists idx x, nth_error xs idx = Some x /\ p = f x idx.
Proof.
  intro H. apply In_nth_error in H as [k Hk].
  unfold forEach in Hk. rewrite forEachFrom_nth_error in Hk.
  destruct (nth_error xs k) as [x|] eqn:E; [|discriminate].
  cbn in Hk. exists k, x. split; [exact E|]. congruence.
Qed.

Lemma forEachFrom_ext {A B : Type} (f g : A -> nat -> B) (xs : list A) :
  (forall x idx, In x xs -> f x idx = g x idx) ->
  forall idx, forEachFrom f idx xs = forEachFrom g idx xs.
Proof.
  induction xs as [|x rest IH]; intros H idx; cbn; [reflexivity|].
  rewrite H by now left. f_equal. apply IH.
  intros y i Hy. apply H. now right.
Qed.

(** The counter of the validation loop counts the overflowing items. *)
Lemma overflow_fold_count (P : PackedItemData -> bool)
      (items : list PackedItemData) :
  forall n0,
    fold_left (fun n it => if P it then S n else n) items n0 =
    (n0 + List.length (filter P items))%nat.
Proof.
  induction items as [|it rest IH]; intro n0; cbn.
  - now rewrite Nat.add_0_r.
  - rewrite IH. destruct (P it); cbn; lia.
Qed.

Lemma overflowCountOf_filter (C : Container) (items : list PackedItemData)
      (fn : Interpretation) :
  overflowCountOf C items fn = List.length (filter (overflows C fn) items).
Proof.
  unfold overflowCountOf, validateInterpretation; cbn.
  now rewrite overflow_fold_count.
Qed.

Lemma overflowCountOf_zero (C : Container) (items : list PackedItemData)
      (fn : Interpretation) :
  overflowCountOf C items fn = 0%nat <->
  forall it, In it items -> overflows C fn it = false.
Proof.
  rewrite overflowCountOf_filter. split.
  - intros H it Hin. destruct (overflows C fn it) eqn:E; [|reflexivity].
    assert (Hf : In it (filter (overflows C fn) items))
      by (apply filter_In; now split).
    destruct (filter (overflows C fn) items); [contradiction | discriminate].
  - intro H. induction items as [|it rest IH]; [reflexivity|]. cbn.
    rewrite (H it) by now left. apply IH.
    intros it' Hin. apply H. now right.
Qed.

Lemma vr_ok_eqb (C : Container) (items : list PackedItemData)
      (fn : Interpretation) :
  vr_ok (validateInterpretation C items fn) =
  Nat.eqb (overflowCountOf C items fn) 0.
Proof. reflexivity. Qed.

Lemma render_nonempty (containerDimensions : ContainerDim)
      (boxDimensions : list BoxDim) (items : list PackedItemData) :
  items <> [] ->
  render containerDimensions boxDimensions (Some items) =
  resolve (container containerDimensions) items.
Proof.
  intro H. unfold render. destruct items; [contradiction | reflexivity].
Qed.

Lemma resolve_cases (C : Container) (items : list PackedItemData) :
  let count := overflowCountOf C items in
  resolve C items =
  if Nat.eqb (count asMinCorner) 0 then
    {| console := [ConsoleInfo "min-corner (x=length,z=width)"];
       group := forEach (placeValidated C asMinCorner) items |}
  else if Nat.eqb (count asCenter) 0 then
    {| console := [ConsoleInfo "center (x=length,z=width)"];
       group := forEach (placeValidated C asCenter) items |}
  else if Nat.eqb (count asMinCornerSwapXZ) 0 then
    {| console := [ConsoleInfo "min-corner swapped X/Z"];
       group := forEach (placeValidated C asMinCornerSwapXZ) items |}
  else if Nat.eqb (count asCenterSwapXZ) 0 then
    {| console := [ConsoleInfo "center swapped X/Z"];
       group := forEach (placeValidated C asCenterSwapXZ) items |}
  else
    {| console := [ConsoleWarn (results C items)];
       group := forEach (placeClamped C) items |}.
Proof.
  cbv zeta. unfold resolve, results, interpretations.
  cbn [map find cand_fn cand_name res_ok res_name res_fn].
  rewrite !vr_ok_eqb.
  repeat match goal with
         | |- context [Nat.eqb ?n 0] => destruct (Nat.eqb n 0); try reflexivity
         end.
Qed.

(* ================================================================== *)
(** ** The interpretation search *)

(** C1.  For a non-empty list of packed items the four interpretations are
    validated in the order min-corner, center, min-corner with the first and
    third components swapped, center with swapped components, and the first
    one whose overflow count is zero is the one used to place the boxes.  In
    particular, when the first and the third are both clean, the first is
    used. *)
Theorem first_clean_interpretation_is_selected
        (containerDimensions : ContainerDim) (boxDimensions : list BoxDim)
        (packedItemsData : list PackedItemData) :
  packedItemsData <> [] ->
  let C := container containerDimensions in
  let count := overflowCountOf C packedItemsData in
  let scene := render containerDimensions boxDimensions (Some packedItemsData) in
  let selected fn name :=
    console scene = [ConsoleInfo name] /\
    group scene = forEach (placeValidated C fn) packedItemsData in
  map (fun r => (res_name r, res_overflowCount r, res_ok r))
      (results C packedItemsData) =
  [ ("min-corner (x=length,z=width)", count asMinCorner,
     Nat.eqb (count asMinCorner) 0);
    ("center (x=length,z=width)", count asCenter,
     Nat.eqb (count asCenter) 0);
    ("min-corner swapped X/Z", count asMinCornerSwapXZ,
     Nat.eqb (count asMinCornerSwapXZ) 0);
    ("center swapped X/Z", count asCenterSwapXZ,
     Nat.eqb (count asCenterSwapXZ) 0) ] /\
  map res_fn (results C packedItemsData) =
  [asMinCorner; asCenter; asMinCornerSwapXZ; asCenterSwapXZ] /\
  (forall raw d,
      asMinCorner raw d = (vx raw, vy raw, vz raw) /\
      asCenter raw d =
        (vx raw - dims_l d / 2, vy raw - dims_h d / 2, vz raw - dims_w d / 2) /\
      asMinCornerSwapXZ raw d = (vz raw, vy raw, vx raw) /\
      asCenterSwapXZ raw d =
        (vz raw - dims_l d / 2, vy raw - dims_h d / 2, vx raw - dims_w d / 2)) /\
  (count asMinCorner = 0%nat ->
   selected asMinCorner "min-corner (x=length,z=width)") /\
  (count asMinCorner <> 0%nat -> count asCenter = 0%nat ->
   selected asCenter "center (x=length,z=width)") /\
  (count asMinCorner <> 0%nat -> count asCenter <> 0%nat ->
   count asMinCornerSwapXZ = 0%nat ->
   selected asMinCornerSwapXZ "min-corner swapped X/Z") /\
  (count asMinCorner <> 0%nat -> count asCenter <> 0%nat ->
   count asMinCornerSwapXZ <> 0%nat -> count asCenterSwapXZ = 0%nat ->
   selected asCenterSwapXZ "center swapped X/Z") /\
  (count asMinCorner = 0%nat -> count asMinCornerSwapXZ = 0%nat ->
   selected asMinCorner "min-corner (x=length,z=width)").
Proof.
  intros Hne C count scene selected.
  assert (Hscene : scene = resolve C packedItemsData)
    by (apply render_nonempty; exact Hne).
  pose proof (resolve_cases C packedItemsData) as Hcases. cbv zeta in Hcases.
  fold count in Hcases. rewrite <- Hscene in Hcases.
  split; [reflexivity|]. split; [reflexivity|].
  split; [intros raw d; repeat split|].
  unfold selected.
  repeat split;
    repeat match goal with
           | |- _ -> _ => intro
           | H : _ = 0%nat |- _ => apply Nat.eqb_eq in H; rewrite H in Hcases
           | H : _ <> 0%nat |- _ => apply Nat.eqb_neq in H; rewrite H in Hcases
           end;
    now rewrite Hcases.
Qed.

(** Scenario B of the specification: the raw position
    [(1.5, 1.5, 1.5)] of a unit cube in a 2 x 2 x 2 container overflows as a
    minimum corner and fits as a centre, so the second candidate is used. *)
Lemma first_clean_interpretation_witness :
  console (render (containerOfSize 2 2 2) []
                  (Some [packedItem 1.5 1.5 1.5 1 1 1])) =
  [ConsoleInfo "center (x=length,z=width)"].
Proof.
  destruct (first_clean_interpretation_is_selected
              (containerOfSize 2 2 2) [] [packedItem 1.5 1.5 1.5 1 1 1])
    as (_ & _ & _ & _ & H & _).
  - discriminate.
  - apply H.
    + vm_compute. discriminate.
    + vm_compute. reflexivity.
Defined.

(* ================================================================== *)
(** ** Container defaulting *)

Lemma orElse_zero (n : JsNumber) :
  orElse n 0 == match n with Some q => q | None => 0 end.
Proof.
  destruct n as [q|]; cbn; [|reflexivity].
  destruct (Qeq_bool q 0) eqn:E; [|reflexivity].
  apply Qeq_bool_iff in E. now rewrite E.
Qed.

Lemma Qdiv_pos_iff (v c : Q) : 0 < c -> (0 < v / c <-> 0 < v).
Proof.
  intro Hc. assert (Hi : 0 < / c) by now apply Qinv_lt_0_compat.
  unfold Qdiv. split; intro H.
  - setoid_replace v with ((v * / c) * c) by (field; lra).
    now apply Qmult_lt_0_compat.
  - now apply Qmult_lt_0_compat.
Qed.

Lemma convertToMeters_pos (v : Q) (u : option string) :
  0 < convertToMeters v u <-> 0 < v.
Proof.
  unfold convertToMeters.
  destruct (String.eqb _ "cm"); [now apply Qdiv_pos_iff|].
  destruct (String.eqb _ "mm"); [now apply Qdiv_pos_iff|].
  destruct (String.eqb _ "in"); split; intro; lra.
Qed.

(** One container dimension: [d = convertToMeters(Number(s) || 0, unit)]
    followed by [d > 0 ? d : fallback]. *)
Lemma defaulting_cases (raw : JsNumber) (unit : option string) (fallback : Q) :
  let d := convertToMeters (orElse raw 0) unit in
  let dim := if Qltb 0 d then d else fallback in
  (raw = None -> dim = fallback) /\
  (forall q, raw = Some q -> q <= 0 -> dim = fallback) /\
  (forall q, raw = Some q -> 0 < q -> dim = convertToMeters q unit /\ 0 < dim).
Proof.
  cbv zeta. split; [|split].
  - intros ->. cbn [orElse].
    assert (H : Qltb 0 (convertToMeters 0 unit) = false)
      by (apply Qltb_false, Qnot_lt_le; rewrite convertToMeters_pos; lra).
    now rewrite H.
  - intros q -> Hq.
    assert (H : Qltb 0 (convertToMeters (orElse (Some q) 0) unit) = false).
    { apply Qltb_false, Qnot_lt_le. rewrite convertToMeters_pos, orElse_zero.
      lra. }
    now rewrite H.
  - intros q -> Hq. cbn [orElse].
    assert (E : Qeq_bool q 0 = false).
    { destruct (Qeq_bool q 0) eqn:E; [|reflexivity].
      apply Qeq_bool_iff in E. lra. }
    rewrite E.
    assert (Hp : 0 < convertToMeters q unit) by now apply convertToMeters_pos.
    pose proof Hp as Hb. apply Qltb_true in Hb. rewrite Hb. now split.
Qed.


(* ================================================================== *)
(** ** Containment of the validated placement *)



Lemma usedFallback_resolve (C : Container) (items : list PackedItemData) :
  let count := overflowCountOf C items in
  usedFallback (resolve C items) = true <->
  (count asMinCorner <> 0 /\ count asCenter <> 0 /\
   count asMinCornerSwapXZ <> 0 /\ count asCenterSwapXZ <> 0)%nat.
Proof.
  cbv zeta. pose proof (resolve_cases C items) as Hc. cbv zeta in Hc.
  rewrite Hc. rewrite <- !Nat.eqb_neq.
  repeat match goal with
         | |- context [Nat.eqb ?n 0] => destruct (Nat.eqb n 0)
         end; cbn; intuition congruence.
Qed.


(** C2, at the input where it fails.  In a 2 x 2 x 2 container, an item of
    length 0 at raw position [(2, 0, 0)] is accepted by the validation of the
    first interpretation, which reads the length as 0; the placement reads
    the same length as 0.1 and puts the box on [2, 2.1] along the length
    axis, outside the container by 0.1, though the fallback flag is off. *)
Theorem validated_box_outside_container :
  let containerDimensions := containerOfSize 2 2 2 in
  let items := [packedItem 2 0 0 0 1 1] in
  let C := container containerDimensions in
  let scene := render containerDimensions [] (Some items) in
  usedFallback scene = false /\
  console scene = [ConsoleInfo "min-corner (x=length,z=width)"] /\
  overflowCountOf C items asMinCorner = 0%nat /\
  exists p,
    group scene = [p] /\
    minCorner p = (2, 0, 0) /\
    dims_l (dims p) = 0.1 /\
    containerLength C + 0.000000001 < vx (minCorner p) + dims_l (dims p) /\
    ~ withinContainer C p /\
    (* the same in scene coordinates: the mesh ends beyond the container *)
    containerLength C * sceneScale C / 2 <
    vx (meshPosition (mesh p)) + vx (geometry (mesh p)) / 2.
Proof.
  cbv zeta. split; [reflexivity|]. split; [reflexivity|].
  split; [reflexivity|].
  eexists. split; [reflexivity|]. split; [reflexivity|].
  split; [reflexivity|]. split; [reflexivity|].
  split; [|reflexivity].
  intros (_ & _ & _ & H & _). vm_compute in H. now apply H.
Qed.

(* ================================================================== *)
(** ** The branch that clamps *)

(** One axis of the clamp: [p = Math.max(0, raw)] followed by
    [if (p + d > c) p = Math.max(0, c - d)]. *)
Lemma clamp_axis (raw itemDim containerDim : Q) :
  clampedAxis raw
    (if Qgtb (Math_max 0 raw + itemDim) containerDim
     then Math_max 0 (containerDim - itemDim) else Math_max 0 raw)
    itemDim containerDim.
Proof.
  unfold clampedAxis.
  destruct (Math_max_cases 0 raw) as [[H1 E1] | [H1 E1]]; rewrite E1;
    destruct (Math_max_cases 0 (containerDim - itemDim))
      as [[H2 E2] | [H2 E2]]; rewrite E2;
    match goal with
    | |- context [Qgtb ?a ?b] =>
        let E := fresh "E" in
        destruct (Qgtb a b) eqn:E;
          [apply Qgtb_true in E | apply Qgtb_false in E]
    end;
    repeat split; intros; lra.
Qed.

Lemma placeClamped_axes (C : Container) (item : PackedItemData) (idx : nat) :
  let p := placeClamped C item idx in
  let raw := asMinCorner (parsePositionRaw (item_position item)) (dims p) in
  dims p = {| dims_l := orElse (dim_length (item_dimensions item)) 0.1;
              dims_w := orElse (dim_width (item_dimensions item)) 0.1;
              dims_h := orElse (dim_height (item_dimensions item)) 0.1 |} /\
  clampedAxis (vx raw) (vx (minCorner p)) (dims_l (dims p)) (containerLength C) /\
  clampedAxis (vy raw) (vy (minCorner p)) (dims_h (dims p)) (containerHeight C) /\
  clampedAxis (vz raw) (vz (minCorner p)) (dims_w (dims p)) (containerWidth C).
Proof.
  cbv zeta. split; [reflexivity|].
  split; [|split]; apply clamp_axis.
Qed.

(** C3.  For a non-empty list of packed items the branch that clamps is
    taken exactly when each of the four interpretations has a non-zero
    overflow count.  On that branch the only message is a warning that
    carries the four results with their counts, one box is placed per item,
    and the box of each item is read as a minimum corner and clamped axis by
    axis: the corner lies in [0, containerDim - itemDim] when the item fits
    on the axis, is 0 when the item is larger than the container, and is the
    raw coordinate itself when that already lies in the interval. *)
Theorem clamped_fallback_bounds
        (containerDimensions : ContainerDim) (boxDimensions : list BoxDim)
        (packedItemsData : list PackedItemData) :
  packedItemsData <> [] ->
  let C := container containerDimensions in
  let count := overflowCountOf C packedItemsData in
  let scene := render containerDimensions boxDimensions (Some packedItemsData) in
  (usedFallback scene = true <->
   (count asMinCorner <> 0 /\ count asCenter <> 0 /\
    count asMinCornerSwapXZ <> 0 /\ count asCenterSwapXZ <> 0)%nat) /\
  (usedFallback scene = true ->
   console scene = [ConsoleWarn (results C packedItemsData)] /\
   map res_overflowCount (results C packedItemsData) =
   [count asMinCorner; count asCenter;
    count asMinCornerSwapXZ; count asCenterSwapXZ] /\
   List.length (group scene) = List.length packedItemsData /\
   forall idx item,
     nth_error packedItemsData idx = Some item ->
     exists p,
       nth_error (group scene) idx = Some p /\
       dims p = {| dims_l := orElse (dim_length (item_dimensions item)) 0.1;
                   dims_w := orElse (dim_width (item_dimensions item)) 0.1;
                   dims_h := orElse (dim_height (item_dimensions item)) 0.1 |} /\
       let raw := asMinCorner (parsePositionRaw (item_position item)) (dims p) in
       clampedAxis (vx raw) (vx (minCorner p)) (dims_l (dims p))
                   (containerLength C) /\
       clampedAxis (vy raw) (vy (minCorner p)) (dims_h (dims p))
                   (containerHeight C) /\
       clampedAxis (vz raw) (vz (minCorner p)) (dims_w (dims p))
                   (containerWidth C)).
Proof.
  intros Hne C count scene.
  assert (Hscene : scene = resolve C packedItemsData)
    by (apply render_nonempty; exact Hne).
  rewrite Hscene. split; [apply usedFallback_resolve|].
  intro Hfb.
  assert (Hres : resolve C packedItemsData =
                 {| console := [ConsoleWarn (results C packedItemsData)];
                    group := forEach (placeClamped C) packedItemsData |}).
  { apply usedFallback_resolve in Hfb. destruct Hfb as (H1 & H2 & H3 & H4).
    pose proof (resolve_cases C packedItemsData) as Hc. cbv zeta in Hc.
    apply Nat.eqb_neq in H1, H2, H3, H4.
    now rewrite H1, H2, H3, H4 in Hc. }
  rewrite Hres. cbn [console group].
  split; [reflexivity|]. split; [reflexivity|].
  split; [apply forEachFrom_length|].
  intros idx item Hitem. exists (placeClamped C item idx).
  split.
  - unfold forEach. rewrite forEachFrom_nth_error, Hitem. reflexivity.
  - apply placeClamped_axes.
Qed.

(** An instance: a box of width 3 does not fit a 2 x 2 x 2 container
    under any interpretation; the branch that clamps is taken. *)
Lemma clamped_fallback_witness :
  usedFallback (render (containerOfSize 2 2 2) []
                       (Some [packedItem 5 (-1) 1.5 1 3 1])) = true.
Proof.
  destruct (clamped_fallback_bounds
              (containerOfSize 2 2 2) [] [packedItem 5 (-1) 1.5 1 3 1])
    as [H _].
  - discriminate.
  - apply H. vm_compute. repeat split; discriminate.
Defined.

(* ================================================================== *)
(** ** The fallback greedy placement *)

Lemma forEachFrom_app {A B : Type} (f : A -> nat -> B) (xs ys : list A) :
  forall idx,
    forEachFrom f idx (xs ++ ys) =
    forEachFrom f idx xs ++ forEachFrom f (idx + List.length xs) ys.
Proof.
  induction xs as [|x rest IH]; intro idx; cbn.
  - now rewrite Nat.add_0_r.
  - rewrite IH. now rewrite Nat.add_succ_r.
Qed.

Lemma instances_snoc (bs : list BoxDim) (b : BoxDim) :
  instances (bs ++ [b]) = instances bs ++ pushInstances b (List.length bs).
Proof.
  unfold instances, forEach. rewrite forEachFrom_app, concat_app. cbn.
  now rewrite app_nil_r.
Qed.

Lemma pushInstances_quantity (b : BoxDim) (ix : nat) (n : Z) :
  box_quantity b = Some (inject_Z n) ->
  (1 <= n)%Z ->
  pushInstances b ix =
  repeat {| inst_l := convertToMeters (orElse (box_length b) 0.1)
                                      (Some (box_unit b));
            inst_w := convertToMeters (orElse (box_width b) 0.1)
                                      (Some (box_unit b));
            inst_h := convertToMeters (orElse (box_height b) 0.1)
                                      (Some (box_unit b));
            inst_idx := ix |}
         (Z.to_nat n).
Proof.
  intros Hq Hn. unfold pushInstances. rewrite Hq. cbn [orElse].
  assert (E : Qeq_bool (inject_Z n) 0 = false).
  { destruct (Qeq_bool (inject_Z n) 0) eqn:E; [|reflexivity].
    apply Qeq_bool_iff in E. unfold Qeq in E. cbn in E. lia. }
  rewrite E, Qfloor_Z. now rewrite Z.max_r by lia.
Qed.

(** The loop of one render, for a fixed container. *)
Section ShelfLoop.

Variable C : Container.

Lemma wrapRow_wrap (cur : Cursor) (it : Instance) :
  containerLength C < cursorX cur + inst_l it ->
  wrapRow C cur it =
  {| cursorX := 0; cursorZ := cursorZ cur + (layerHeight cur + 0.01);
     layerHeight := 0 |}.
Proof.
  intro H. unfold wrapRow. apply Qgtb_true in H. now rewrite H.
Qed.

Lemma wrapRow_stay (cur : Cursor) (it : Instance) :
  cursorX cur + inst_l it <= containerLength C ->
  wrapRow C cur it = cur.
Proof.
  intro H. unfold wrapRow. apply Qgtb_false in H. now rewrite H.
Qed.

Lemma shelfLoop_stop (cur : Cursor) (it : Instance)
      (rest : list Instance) :
  containerWidth C < cursorZ (wrapRow C cur it) + inst_w it ->
  shelfLoop C cur (it :: rest) = [].
Proof.
  intro H. cbn [shelfLoop]. apply Qgtb_true in H. now rewrite H.
Qed.

Lemma shelfLoop_place (cur : Cursor) (it : Instance)
      (rest : list Instance) :
  cursorZ (wrapRow C cur it) + inst_w it <= containerWidth C ->
  exists p,
    shelfLoop C cur (it :: rest) =
    p :: shelfLoop C
           {| cursorX := cursorX (wrapRow C cur it) + (inst_l it + 0.01);
              cursorZ := cursorZ (wrapRow C cur it);
              layerHeight := Math_max (layerHeight (wrapRow C cur it))
                                      (inst_w it) |}
           rest /\
    minCorner p = (cursorX (wrapRow C cur it), 0, cursorZ (wrapRow C cur it)) /\
    dims p = {| dims_l := inst_l it; dims_w := inst_w it;
                dims_h := inst_h it |}.
Proof.
  intro H. cbn [shelfLoop]. apply Qgtb_false in H. rewrite H.
  eexists. split; [reflexivity|]. split; reflexivity.
Qed.

Lemma Math_max_is_max (a b : Q) :
  a <= Math_max a b /\ b <= Math_max a b /\
  (Math_max a b = a \/ Math_max a b = b).
Proof.
  destruct (Math_max_cases a b) as [[H E] | [H E]]; rewrite E;
    repeat split; try lra; auto.
Qed.

(** C4.  Without packed items the boxes are expanded, in the order of the
    input, into as many instances as their quantity says, and the loop
    treats the instances in that order: when [cursorX + length] exceeds the
    container length it resets [cursorX] to 0, adds [layerHeight + 0.01] to
    [cursorZ] and resets [layerHeight]; when [cursorZ + width] then exceeds
    the container width it stops and places none of the remaining instances;
    otherwise it places the instance with its minimum corner at
    [(cursorX, 0, cursorZ)], adds [length + 0.01] to [cursorX] and sets
    [layerHeight] to the larger of [layerHeight] and [width].  For a
    1 x 1 x 1 container and one 2 x 1 x 1 box nothing is placed. *)
Theorem shelf_packer_steps :
  (forall containerDimensions boxDimensions,
      render containerDimensions boxDimensions None =
      {| console := [];
         group := fallbackGreedy (container containerDimensions)
                                 boxDimensions |} /\
      render containerDimensions boxDimensions (Some []) =
      {| console := [];
         group := fallbackGreedy (container containerDimensions)
                                 boxDimensions |}) /\
  instances [] = [] /\
  (forall bs b,
      instances (bs ++ [b]) = instances bs ++ pushInstances b (List.length bs)) /\
  (forall b ix n,
      box_quantity b = Some (inject_Z n) -> (1 <= n)%Z ->
      pushInstances b ix =
      repeat {| inst_l := convertToMeters (orElse (box_length b) 0.1)
                                          (Some (box_unit b));
                inst_w := convertToMeters (orElse (box_width b) 0.1)
                                          (Some (box_unit b));
                inst_h := convertToMeters (orElse (box_height b) 0.1)
                                          (Some (box_unit b));
                inst_idx := ix |}
             (Z.to_nat n)) /\
  (forall bs,
      fallbackGreedy C bs =
      shelfLoop C {| cursorX := 0; cursorZ := 0; layerHeight := 0 |}
                (instances bs)) /\
  shelfLoop C {| cursorX := 0; cursorZ := 0; layerHeight := 0 |} [] = [] /\
  (forall cur it,
      containerLength C < cursorX cur + inst_l it ->
      wrapRow C cur it =
      {| cursorX := 0; cursorZ := cursorZ cur + (layerHeight cur + 0.01);
         layerHeight := 0 |}) /\
  (forall cur it,
      cursorX cur + inst_l it <= containerLength C -> wrapRow C cur it = cur) /\
  (forall cur it rest,
      containerWidth C < cursorZ (wrapRow C cur it) + inst_w it ->
      shelfLoop C cur (it :: rest) = []) /\
  (forall cur it rest,
      cursorZ (wrapRow C cur it) + inst_w it <= containerWidth C ->
      exists p,
        shelfLoop C cur (it :: rest) =
        p :: shelfLoop C
               {| cursorX := cursorX (wrapRow C cur it) + (inst_l it + 0.01);
                  cursorZ := cursorZ (wrapRow C cur it);
                  layerHeight := Math_max (layerHeight (wrapRow C cur it))
                                          (inst_w it) |}
               rest /\
        minCorner p =
        (cursorX (wrapRow C cur it), 0, cursorZ (wrapRow C cur it)) /\
        dims p = {| dims_l := inst_l it; dims_w := inst_w it;
                    dims_h := inst_h it |}) /\
  (forall a b,
      a <= Math_max a b /\ b <= Math_max a b /\
      (Math_max a b = a \/ Math_max a b = b)) /\
  group (render (containerOfSize 1 1 1) [boxOfSize 2 1 1 1] None) = [] /\
  group (render (containerOfSize 1 1 1) [boxOfSize 2 1 1 1] (Some [])) = [] /\
  Shipped.render (containerOfSize 1 1 1) [boxOfSize 2 1 1 1] None = [].
Proof.
  split; [intros; split; reflexivity|].
  split; [reflexivity|].
  split; [apply instances_snoc|].
  split; [apply pushInstances_quantity|].
  split; [reflexivity|].
  split; [reflexivity|].
  split; [apply wrapRow_wrap|].
  split; [apply wrapRow_stay|].
  split; [apply shelfLoop_stop|].
  split; [apply shelfLoop_place|].
  split; [apply Math_max_is_max|].
  split; [reflexivity|]. split; reflexivity.
Qed.

(** Scenario C of the specification on the code: in a 3 x 2 x 2 container,
    of five unit cubes the loop places two, at [x = 0] and [x = 1.01]; the
    third would end at 3.02, wraps to [z = 1.01], and stops the loop, since
    2.01 exceeds the width. *)
Example five_unit_cubes_in_3_2_2 :
  map (fun p => (Qred (vx (minCorner p)), Qred (vz (minCorner p))))
      (fallbackGreedy (container (containerOfSize 3 2 2)) [boxOfSize 1 1 1 5]) =
  [(0, 0); (1.01, 0)].
Proof. reflexivity. Qed.

(** The loop keeps [cursorZ] and [layerHeight] non-negative, and places an
    instance only after the test on the width. *)
Lemma shelfLoop_width_invariant (its : list Instance) :
  forall cur,
    0 <= cursorZ cur -> 0 <= layerHeight cur ->
    forall p, In p (shelfLoop C cur its) ->
              0 <= vz (minCorner p) /\
              vz (minCorner p) + dims_w (dims p) <= containerWidth C.
Proof.
  induction its as [|it rest IH]; intros cur Hz Hh p Hp; [contradiction|].
  assert (Hw : 0 <= cursorZ (wrapRow C cur it) /\
               0 <= layerHeight (wrapRow C cur it)).
  { unfold wrapRow. destruct (Qgtb _ _); cbn; unfold padding; lra. }
  destruct Hw as [Hz' Hh'].
  destruct (Qlt_le_dec (containerWidth C)
                       (cursorZ (wrapRow C cur it) + inst_w it)) as [Hs | Hs].
  - rewrite (shelfLoop_stop cur it rest Hs) in Hp. contradiction.
  - destruct (shelfLoop_place cur it rest Hs) as (q & E & Hc & Hd).
    rewrite E in Hp. destruct Hp as [<- | Hp].
    + rewrite Hc, Hd. cbn. split; assumption.
    + apply IH in Hp; [exact Hp | exact Hz' |].
      cbn. pose proof (Math_max_is_max (layerHeight (wrapRow C cur it))
                                       (inst_w it)) as (H & _). lra.
Qed.

Lemma shelfLoop_length_overflow (cur : Cursor) (it : Instance)
      (rest : list Instance) :
  containerLength C < inst_l it ->
  0 <= cursorX cur ->
  cursorZ (wrapRow C cur it) + inst_w it <= containerWidth C ->
  exists p tl,
    shelfLoop C cur (it :: rest) = p :: tl /\
    vx (minCorner p) = 0 /\
    containerLength C < vx (minCorner p) + dims_l (dims p).
Proof.
  intros Hl Hx Hw.
  destruct (shelfLoop_place cur it rest Hw) as (p & E & Hc & Hd).
  assert (Hwrap : containerLength C < cursorX cur + inst_l it) by lra.
  rewrite (wrapRow_wrap cur it Hwrap) in Hc.
  exists p. eexists. split; [exact E|].
  rewrite Hc, Hd. cbn. split; [reflexivity | lra].
Qed.

End ShelfLoop.

(** C10.  Every instance the fallback loop places has [0 <= cursorZ] and
    [cursorZ + width <= containerWidth] when it is placed.  The length has no
    such test after a wrap: an instance longer than the container whose width
    fits the row is placed at [cursorX = 0] and ends beyond the container
    length; a 1 x 1 x 1 container with one 2 x 0.5 x 1 box is such an input. *)
Theorem shelf_width_invariant_and_length_overflow :
  (forall C boxDimensions p,
      In p (fallbackGreedy C boxDimensions) ->
      0 <= vz (minCorner p) /\
      vz (minCorner p) + dims_w (dims p) <= containerWidth C) /\
  (forall C cur it rest,
      containerLength C < inst_l it ->
      0 <= cursorX cur ->
      cursorZ (wrapRow C cur it) + inst_w it <= containerWidth C ->
      exists p tl,
        shelfLoop C cur (it :: rest) = p :: tl /\
        vx (minCorner p) = 0 /\
        containerLength C < vx (minCorner p) + dims_l (dims p)) /\
  (exists p,
      fallbackGreedy (container (containerOfSize 1 1 1))
                     [boxOfSize 2 0.5 1 1] = [p] /\
      vx (minCorner p) = 0 /\
      dims_l (dims p) = 2 /\
      containerLength (container (containerOfSize 1 1 1)) <
      vx (minCorner p) + dims_l (dims p)).
Proof.
  split; [|split].
  - intros C boxDimensions p Hp.
    apply (shelfLoop_width_invariant C (instances boxDimensions) cursor0);
      [cbn; lra | cbn; lra | exact Hp].
  - apply shelfLoop_length_overflow.
  - eexists. split; [reflexivity|]. repeat split.
Qed.

(* ================================================================== *)
(** ** From minimum corners to scene coordinates *)

Lemma Vec3_eq_refl (v : Vec3) : Vec3_eq v v.
Proof. repeat split; reflexivity. Qed.

Lemma placeValidated_mapped (C : Container) (fn : Interpretation)
      (item : PackedItemData) (idx : nat) :
  sceneMapped C (placeValidated C fn item idx).
Proof. split; [apply Vec3_eq_refl | reflexivity]. Qed.

Lemma placeClamped_mapped (C : Container) (item : PackedItemData) (idx : nat) :
  sceneMapped C (placeClamped C item idx).
Proof. split; [apply Vec3_eq_refl | reflexivity]. Qed.

Lemma shelfLoop_mapped (C : Container) (its : list Instance) :
  forall cur p, In p (shelfLoop C cur its) -> sceneMapped C p.
Proof.
  induction its as [|it rest IH]; intros cur p Hp; [contradiction|].
  cbn [shelfLoop] in Hp. destruct (Qgtb _ _); [contradiction|].
  destruct Hp as [<- | Hp]; [|now apply IH in Hp].
  split; [|reflexivity].
  unfold Vec3_eq; cbn. repeat split; try reflexivity.
  now rewrite Qplus_0_l.
Qed.

Lemma resolve_mapped (C : Container) (items : list PackedItemData) (p : Placed) :
  In p (group (resolve C items)) -> sceneMapped C p.
Proof.
  intro Hp. pose proof (resolve_cases C items) as Hc. cbv zeta in Hc.
  rewrite Hc in Hp. clear Hc.
  repeat match type of Hp with
         | context [Nat.eqb ?n 0] => destruct (Nat.eqb n 0)
         end;
    cbn [group] in Hp; apply forEach_In in Hp as (idx & x & _ & ->);
    first [apply placeValidated_mapped | apply placeClamped_mapped].
Qed.

(** C5.  Every box of the scene, whichever branch placed it, has its centre
    at [(minCorner + size / 2 - containerDim / 2) * sceneScale] on the length
    and on the width axis and at [(minCorner + size / 2) * sceneScale] on the
    height axis.  For a 2 x 2 x 2 container and one unit cube at raw position
    [(0, 0, 0)] the first interpretation validates, the minimum corner is
    [(0, 0, 0)], the scale is 4 and the centre is [(-2, 2, -2)]. *)
Theorem scene_position_formula :
  (forall containerDimensions boxDimensions packedItemsData p,
      In p (group (render containerDimensions boxDimensions packedItemsData)) ->
      let C := container containerDimensions in
      Vec3_eq (meshPosition (mesh p))
              ((vx (minCorner p) + dims_l (dims p) / 2 - containerLength C / 2)
               * sceneScale C,
               (vy (minCorner p) + dims_h (dims p) / 2) * sceneScale C,
               (vz (minCorner p) + dims_w (dims p) / 2 - containerWidth C / 2)
               * sceneScale C)) /\
  (let containerDimensions := containerOfSize 2 2 2 in
   let scene := render containerDimensions [] (Some [packedItem 0 0 0 1 1 1]) in
   overflowCountOf (container containerDimensions)
                   [packedItem 0 0 0 1 1 1] asMinCorner = 0%nat /\
   console scene = [ConsoleInfo "min-corner (x=length,z=width)"] /\
   usedFallback scene = false /\
   sceneScale (container containerDimensions) == 4 /\
   exists p,
     group scene = [p] /\
     minCorner p = (0, 0, 0) /\
     dims p = {| dims_l := 1; dims_w := 1; dims_h := 1 |} /\
     Vec3_eq (meshPosition (mesh p)) (- (2), 2, - (2))).
Proof.
  split.
  - intros containerDimensions boxDimensions packedItemsData p Hp C.
    assert (Hm : sceneMapped C p); [|exact (proj1 Hm)].
    unfold render in Hp. fold C in Hp.
    destruct packedItemsData as [items|].
    + destruct (0 <? List.length items)%nat.
      * now apply resolve_mapped in Hp.
      * now apply shelfLoop_mapped in Hp.
    + now apply shelfLoop_mapped in Hp.
  - cbv zeta. split; [reflexivity|]. split; [reflexivity|].
    split; [reflexivity|]. split; [reflexivity|].
    eexists. split; [reflexivity|]. split; [reflexivity|].
    split; [reflexivity|]. repeat split.
Qed.

(* ================================================================== *)
(** ** The two versions on well-placed items *)

Lemma placeBox_fits (C : Container) (item : PackedItemData) (idx : nat) :
  fitsAsMinCorner C item ->
  Shipped.placeBox C item idx = placeValidated C asMinCorner item idx.
Proof.
  intros (l & w & h & El & Ew & Eh & Hl & Hw & Hh & Hx & Hy & Hz).
  unfold Shipped.placeBox, placeValidated, asMinCorner. cbv zeta.
  cbn [vx vy vz fst snd].
  rewrite El, Ew, Eh in *. cbn [orElse].
  assert (Z : forall q, 0 < q -> Qeq_bool q 0 = false).
  { intros q Hq. destruct (Qeq_bool q 0) eqn:E; [|reflexivity].
    apply Qeq_bool_iff in E. lra. }
  rewrite !(Z _ Hl), !(Z _ Hw), !(Z _ Hh).
  assert (M : forall raw bound, 0 <= raw <= bound ->
                                Math_max 0 (Math_min raw bound) = raw).
  { intros raw bound [H0 H1]. unfold Math_min, Math_max.
    apply Qle_bool_iff in H0, H1. now rewrite H1, H0. }
  unfold vx, vy, vz in *.
  now rewrite (M _ _ Hx), (M _ _ Hy), (M _ _ Hz).
Qed.

Lemma fits_not_overflowing (C : Container) (item : PackedItemData) :
  fitsAsMinCorner C item -> overflows C asMinCorner item = false.
Proof.
  intros (l & w & h & El & Ew & Eh & Hl & Hw & Hh & Hx & Hy & Hz).
  unfold overflows, asMinCorner. cbv zeta. cbn [vx vy vz fst snd].
  rewrite El, Ew, Eh. unfold vx, vy, vz in *.
  repeat (apply orb_false_iff; split);
    first [apply Qltb_false | apply Qgtb_false];
    rewrite ?orElse_zero; lra.
Qed.

Lemma Forall2_sameMesh_refl (ps : list Placed) : Forall2 sameMesh ps ps.
Proof.
  induction ps; constructor; [|assumption].
  repeat split; reflexivity.
Qed.

(** C9.  When every packed item has positive dimensions and its raw
    position, read as a minimum corner, lies in [0, containerDim - itemDim]
    on each axis, the version that clamps every item puts the boxes where
    the version with the search puts them, and that version selects the
    first interpretation and does not clamp. *)
Theorem shipped_agrees_with_resolver
        (containerDimensions : ContainerDim) (boxDimensions : list BoxDim)
        (packedItemsData : option (list PackedItemData)) :
  (forall items item,
      packedItemsData = Some items -> In item items ->
      fitsAsMinCorner (container containerDimensions) item) ->
  let C := container containerDimensions in
  let shipped := Shipped.render containerDimensions boxDimensions
                                packedItemsData in
  let scene := render containerDimensions boxDimensions packedItemsData in
  usedFallback scene = false /\
  (forall items,
      packedItemsData = Some items -> items <> [] ->
      console scene = [ConsoleInfo "min-corner (x=length,z=width)"] /\
      group scene = forEach (placeValidated C asMinCorner) items) /\
  Forall2 sameMesh shipped (group scene) /\
  map (fun p => meshPosition (mesh p)) shipped =
  map (fun p => meshPosition (mesh p)) (group scene).
Proof.
  intros Hfit C shipped scene. subst shipped scene.
  unfold Shipped.render, Shipped.createBoxesGroup, render. fold C.
  destruct packedItemsData as [items|].
  2: { cbn. split; [reflexivity|]. split; [discriminate|].
       split; [apply Forall2_sameMesh_refl | reflexivity]. }
  destruct items as [|item rest].
  { cbn. split; [reflexivity|]. split; [intros items E; now inversion E|].
    split; [apply Forall2_sameMesh_refl | reflexivity]. }
  cbn [List.length Nat.ltb Nat.leb].
  set (items := item :: rest) in *.
  assert (Hcount : overflowCountOf C items asMinCorner = 0%nat).
  { apply overflowCountOf_zero. intros it Hin.
    apply fits_not_overflowing. now apply (Hfit items). }
  pose proof (resolve_cases C items) as Hc. cbv zeta in Hc.
  rewrite Hcount in Hc. cbn [Nat.eqb] in Hc. rewrite Hc.
  cbn [console group usedFallback existsb].
  assert (Heq : forEach (Shipped.placeBox C) items =
                forEach (placeValidated C asMinCorner) items).
  { apply forEachFrom_ext. intros x idx Hin. apply placeBox_fits.
    now apply (Hfit items). }
  rewrite Heq.
  split; [reflexivity|]. split; [intros items' E _; now inversion E|].
  split; [apply Forall2_sameMesh_refl | reflexivity].
Qed.

(** An instance: two unit cubes side by side in a 2 x 2 x 2
    container. *)
Lemma shipped_agrees_witness :
  map (fun p => meshPosition (mesh p))
      (Shipped.render (containerOfSize 2 2 2) []
                      (Some [packedItem 0 0 0 1 1 1; packedItem 1 0 0 1 1 1])) =
  map (fun p => meshPosition (mesh p))
      (group (render (containerOfSize 2 2 2) []
                     (Some [packedItem 0 0 0 1 1 1; packedItem 1 0 0 1 1 1]))).
Proof.
  apply (shipped_agrees_with_resolver
           (containerOfSize 2 2 2) []
           (Some [packedItem 0 0 0 1 1 1; packedItem 1 0 0 1 1 1])).
  intros items item E Hin. inversion E; subst items; clear E.
  destruct Hin as [<- | [<- | []]];
    exists 1, 1, 1; vm_compute; intuition discriminate.
Defined.

(* ================================================================== *)
(** ** The model does not depend on the way a number is written *)

#[local] Instance Qltb_proper : Proper (Qeq ==> Qeq ==> eq) Qltb.
Proof. intros a a' Ha b b' Hb. unfold Qltb. now rewrite Ha, Hb. Qed.

#[local] Instance Qgtb_proper : Proper (Qeq ==> Qeq ==> eq) Qgtb.
Proof. intros a a' Ha b b' Hb. unfold Qgtb. now rewrite Ha, Hb. Qed.

#[local] Instance Math_max_proper : Proper (Qeq ==> Qeq ==> Qeq) Math_max.
Proof.
  intros a a' Ha b b' Hb. unfold Math_max.
  rewrite (Qleb_comp _ _ Ha _ _ Hb). now destruct (Qle_bool a' b').
Qed.

Lemma orElse_eq (a b : JsNumber) (d : Q) :
  JsNumber_eq a b -> orElse a d == orElse b d.
Proof.
  destruct a as [x|], b as [y|]; cbn; intro H; try contradiction;
    [|reflexivity].
  rewrite (Qeqb_comp _ _ H 0 0 (Qeq_refl 0)). now destruct (Qeq_bool y 0).
Qed.

#[local] Instance convertToMeters_proper :
  Proper (Qeq ==> eq ==> Qeq) convertToMeters.
Proof.
  intros v v' Hv u u' <-. unfold convertToMeters.
  repeat match goal with
         | |- context [String.eqb ?a ?b] => destruct (String.eqb a b)
         end; now rewrite Hv.
Qed.

Lemma defaulted_eq (d d' fallback : Q) :
  d == d' ->
  (if Qltb 0 d then d else fallback) == (if Qltb 0 d' then d' else fallback).
Proof.
  intro H. rewrite H at 1. destruct (Qltb 0 d'); [exact H | reflexivity].
Qed.

Lemma container_eq (c1 c2 : ContainerDim) :
  ContainerDim_eq c1 c2 -> Container_eq (container c1) (container c2).
Proof.
  intros (Hl & Hw & Hh & Hu). unfold Container_eq, container.
  cbn [containerLength containerWidth containerHeight].
  unfold contL, contW, contH. rewrite Hu.
  repeat split; apply defaulted_eq;
    apply convertToMeters_proper; try reflexivity; now apply orElse_eq.
Qed.

Lemma sceneScale_Container_eq (C1 C2 : Container) :
  Container_eq C1 C2 -> sceneScale C1 == sceneScale C2.
Proof.
  intros (Hl & Hw & Hh). unfold sceneScale.
  assert (Hm : maxDim C1 == maxDim C2)
    by (unfold maxDim; now rewrite Hl, Hw, Hh).
  rewrite (Qltb_proper 0 0 (Qeq_refl 0) _ _ Hm).
  destruct (Qltb 0 (maxDim C2)); [now rewrite Hm | reflexivity].
Qed.

Lemma nullish_eq (a b : option JsNumber) (c d : JsNumber) :
  property_eq a b -> JsNumber_eq c d -> JsNumber_eq (nullish a c) (nullish b d).
Proof. destruct a, b; cbn; intros; tauto. Qed.

Lemma Forall2_nth_JsNumber (e1 e2 : list JsNumber) :
  Forall2 JsNumber_eq e1 e2 ->
  forall k, JsNumber_eq (nth k e1 None) (nth k e2 None) /\
            property_eq (nth_error e1 k) (nth_error e2 k).
Proof.
  induction 1 as [|x y r1 r2 Hxy _ IH]; intro k.
  - destruct k; cbn; tauto.
  - destruct k as [|k]; cbn; [tauto | apply IH].
Qed.

Lemma parsePositionRaw_eq (p1 p2 : Position) :
  Position_eq p1 p2 -> Vec3_eq (parsePositionRaw p1) (parsePositionRaw p2).
Proof.
  destruct 1 as [| e1 e2 He | x1 y1 z1 i1 j1 k1 x2 y2 z2 i2 j2 k2 | ];
    try apply Vec3_eq_refl.
  - cbn [parsePositionRaw]. rewrite (Forall2_length He).
    pose proof (Forall2_nth_JsNumber e1 e2 He) as Hn.
    destruct (3 <=? List.length e2)%nat; unfold Vec3_eq;
      cbn [vx vy vz fst snd];
      repeat split; apply orElse_eq;
      first [ apply Hn | apply nullish_eq; [apply Hn | cbn; reflexivity] ].
  - unfold Vec3_eq; cbn [parsePositionRaw vx vy vz fst snd].
    repeat split; apply orElse_eq;
      (apply nullish_eq; [assumption|]);
      (apply nullish_eq; [assumption | cbn; reflexivity]).
Qed.

Lemma interpretations_respect_numbers :
  Forall (fun it => respectsNumbers (cand_fn it)) interpretations.
Proof.
  unfold interpretations.
  repeat (apply Forall_cons; [|]); try apply Forall_nil; cbn [cand_fn];
    intros raw1 raw2 d1 d2 (Hx & Hy & Hz) (Hl & Hw & Hh);
    unfold Vec3_eq, asMinCorner, asCenter, asMinCornerSwapXZ, asCenterSwapXZ;
    cbn [vx vy vz fst snd]; unfold vx, vy, vz in *;
    repeat split; rewrite ?Hx, ?Hy, ?Hz, ?Hl, ?Hw, ?Hh; reflexivity.
Qed.

Lemma overflows_eq (C1 C2 : Container) (fn : Interpretation)
      (it1 it2 : PackedItemData) :
  Container_eq C1 C2 -> respectsNumbers fn -> PackedItemData_eq it1 it2 ->
  overflows C1 fn it1 = overflows C2 fn it2.
Proof.
  intros (HL & HW & HH) Hfn (_ & Hp & Hl & Hw & Hh).
  unfold overflows. cbv zeta.
  apply (orElse_eq _ _ 0) in Hl, Hw, Hh.
  apply parsePositionRaw_eq in Hp.
  set (l1 := orElse (dim_length (item_dimensions it1)) 0) in *.
  set (w1 := orElse (dim_width (item_dimensions it1)) 0) in *.
  set (h1 := orElse (dim_height (item_dimensions it1)) 0) in *.
  set (l2 := orElse (dim_length (item_dimensions it2)) 0) in *.
  set (w2 := orElse (dim_width (item_dimensions it2)) 0) in *.
  set (h2 := orElse (dim_height (item_dimensions it2)) 0) in *.
  destruct (Hfn _ _ {| dims_l := l1; dims_w := w1; dims_h := h1 |}
                {| dims_l := l2; dims_w := w2; dims_h := h2 |} Hp)
    as (Hx & Hy & Hz); [repeat split; assumption|].
  now rewrite Hx, Hy, Hz, Hl, Hw, Hh, HL, HW, HH.
Qed.

Lemma filter_length_Forall2 {A : Type} (R : A -> A -> Prop) (P Q : A -> bool)
      (xs ys : list A) :
  Forall2 R xs ys -> (forall a b, R a b -> P a = Q b) ->
  List.length (filter P xs) = List.length (filter Q ys).
Proof.
  intros H HPQ. induction H as [|a b xs ys Hab _ IH]; [reflexivity|].
  cbn. rewrite (HPQ a b Hab). destruct (Q b); cbn; now rewrite IH.
Qed.

Lemma overflowCountOf_eq (C1 C2 : Container) (fn : Interpretation)
      (items1 items2 : list PackedItemData) :
  Container_eq C1 C2 -> respectsNumbers fn ->
  Forall2 PackedItemData_eq items1 items2 ->
  overflowCountOf C1 items1 fn = overflowCountOf C2 items2 fn.
Proof.
  intros HC Hfn Hitems. rewrite !overflowCountOf_filter.
  apply (filter_length_Forall2 PackedItemData_eq); [assumption|].
  intros a b Hab. now apply overflows_eq.
Qed.

Lemma forEachFrom_Forall2 {A B : Type} (R : A -> A -> Prop) (S : B -> B -> Prop)
      (f g : A -> nat -> B) (xs ys : list A) :
  Forall2 R xs ys -> (forall x y idx, R x y -> S (f x idx) (g y idx)) ->
  forall idx, Forall2 S (forEachFrom f idx xs) (forEachFrom g idx ys).
Proof.
  intros H Hfg. induction H as [|x y xs ys Hxy _ IH]; intro idx; cbn;
    constructor; [now apply Hfg | apply IH].
Qed.

Lemma center_eq (p p' d d' c c' s s' : Q) :
  p == p' -> d == d' -> c == c' -> s == s' ->
  (p + d / 2 - c / 2) * s == (p' + d' / 2 - c' / 2) * s'.
Proof. intros Hp Hd Hc Hs. rewrite Hp, Hd, Hc, Hs. reflexivity. Qed.

Lemma centerY_eq (p p' d d' s s' : Q) :
  p == p' -> d == d' -> s == s' -> (p + d / 2) * s == (p' + d' / 2) * s'.
Proof. intros Hp Hd Hs. rewrite Hp, Hd, Hs. reflexivity. Qed.

Lemma clamp_eq (raw raw' d d' c c' : Q) :
  raw == raw' -> d == d' -> c == c' ->
  (if Qgtb (Math_max 0 raw + d) c then Math_max 0 (c - d) else Math_max 0 raw)
  == (if Qgtb (Math_max 0 raw' + d') c' then Math_max 0 (c' - d')
      else Math_max 0 raw').
Proof.
  intros Hr Hd Hc.
  assert (E : Qgtb (Math_max 0 raw + d) c = Qgtb (Math_max 0 raw' + d') c')
    by now rewrite Hr, Hd, Hc.
  rewrite E. clear E.
  destruct (Qgtb (Math_max 0 raw' + d') c'); rewrite ?Hr, ?Hd, ?Hc;
    reflexivity.
Qed.

Ltac placed_eq_goals :=
  unfold Placed_eq, sameMesh, Vec3_eq, Dims_eq;
  cbn [minCorner dims mesh geometry color meshPosition dims_l dims_w dims_h
       vx vy vz fst snd];
  repeat split;
  first [ assumption
        | reflexivity
        | apply center_eq; assumption
        | apply centerY_eq; assumption
        | apply Qmult_comp; assumption ].

Lemma placeValidated_eq (C1 C2 : Container) (fn : Interpretation)
      (it1 it2 : PackedItemData) (idx : nat) :
  Container_eq C1 C2 -> respectsNumbers fn -> PackedItemData_eq it1 it2 ->
  Placed_eq (placeValidated C1 fn it1 idx) (placeValidated C2 fn it2 idx).
Proof.
  intros HC Hfn (_ & Hp & Hl & Hw & Hh).
  pose proof (sceneScale_Container_eq _ _ HC) as Hs.
  destruct HC as (HL & HW & HH).
  unfold placeValidated. cbv zeta.
  apply (orElse_eq _ _ 0.1) in Hl, Hw, Hh.
  apply parsePositionRaw_eq in Hp.
  set (l1 := orElse (dim_length (item_dimensions it1)) 0.1) in *.
  set (w1 := orElse (dim_width (item_dimensions it1)) 0.1) in *.
  set (h1 := orElse (dim_height (item_dimensions it1)) 0.1) in *.
  set (l2 := orElse (dim_length (item_dimensions it2)) 0.1) in *.
  set (w2 := orElse (dim_width (item_dimensions it2)) 0.1) in *.
  set (h2 := orElse (dim_height (item_dimensions it2)) 0.1) in *.
  destruct (Hfn _ _ {| dims_l := l1; dims_w := w1; dims_h := h1 |}
                {| dims_l := l2; dims_w := w2; dims_h := h2 |} Hp)
    as (Hx & Hy & Hz); [repeat split; assumption|].
  placed_eq_goals.
Qed.

Lemma placeClamped_eq (C1 C2 : Container) (it1 it2 : PackedItemData)
      (idx : nat) :
  Container_eq C1 C2 -> PackedItemData_eq it1 it2 ->
  Placed_eq (placeClamped C1 it1 idx) (placeClamped C2 it2 idx).
Proof.
  intros HC (_ & Hp & Hl & Hw & Hh).
  pose proof (sceneScale_Container_eq _ _ HC) as Hs.
  destruct HC as (HL & HW & HH).
  unfold placeClamped. cbv zeta.
  apply (orElse_eq _ _ 0.1) in Hl, Hw, Hh.
  apply parsePositionRaw_eq in Hp. destruct Hp as (Hx & Hy & Hz).
  pose proof (clamp_eq _ _ _ _ _ _ Hx Hl HL) as Hpx.
  pose proof (clamp_eq _ _ _ _ _ _ Hy Hh HH) as Hpy.
  pose proof (clamp_eq _ _ _ _ _ _ Hz Hw HW) as Hpz.
  placed_eq_goals.
Qed.

(** C8.  Two runs of the resolution pass on the same container and the same
    packed items, also when the numbers of the two inputs are written
    differently, select the same interpretation, report the same results and
    place the same boxes; on inputs that are equal the two scenes are
    equal. *)
Theorem resolution_is_deterministic
        (c1 c2 : ContainerDim) (items1 items2 : list PackedItemData) :
  ContainerDim_eq c1 c2 ->
  Forall2 PackedItemData_eq items1 items2 ->
  okInterpretation (container c1) items1 =
  okInterpretation (container c2) items2 /\
  console (resolve (container c1) items1) =
  console (resolve (container c2) items2) /\
  Forall2 Placed_eq (group (resolve (container c1) items1))
          (group (resolve (container c2) items2)) /\
  (c1 = c2 -> items1 = items2 ->
   resolve (container c1) items1 = resolve (container c2) items2).
Proof.
  intros Hc Hitems. apply container_eq in Hc.
  set (C1 := container c1) in *. set (C2 := container c2) in *.
  pose proof interpretations_respect_numbers as Hfns.
  unfold interpretations in Hfns.
  repeat match goal with
         | H : Forall _ (_ :: _) |- _ =>
             let Hh := fresh "Hfn" in
             apply Forall_cons_iff in H; destruct H as [Hh H]
         end.
  cbn [cand_fn] in *.
  assert (Hcount : forall fn, respectsNumbers fn ->
                              overflowCountOf C1 items1 fn =
                              overflowCountOf C2 items2 fn)
    by (intros fn Hresp; now apply overflowCountOf_eq).
  assert (Hresults : results C1 items1 = results C2 items2).
  { unfold results, interpretations, validateInterpretation.
    cbn [map cand_fn cand_name vr_ok vr_overflowCount].
    pose proof (Hcount _ Hfn) as E1. pose proof (Hcount _ Hfn0) as E2.
    pose proof (Hcount _ Hfn1) as E3. pose proof (Hcount _ Hfn2) as E4.
    unfold overflowCountOf, validateInterpretation in E1, E2, E3, E4.
    cbn [vr_overflowCount] in E1, E2, E3, E4.
    now rewrite E1, E2, E3, E4. }
  split; [unfold okInterpretation; now rewrite Hresults|].
  assert (Hgoal :
            console (resolve C1 items1) = console (resolve C2 items2) /\
            Forall2 Placed_eq (group (resolve C1 items1))
                    (group (resolve C2 items2))).
  { pose proof (resolve_cases C1 items1) as R1.
    pose proof (resolve_cases C2 items2) as R2. cbv zeta in R1, R2.
    rewrite R1, R2, Hresults.
    rewrite (Hcount _ Hfn), (Hcount _ Hfn0), (Hcount _ Hfn1), (Hcount _ Hfn2).
    repeat match goal with
           | |- context [Nat.eqb ?n 0] => destruct (Nat.eqb n 0)
           end;
      cbn [console group]; (split; [reflexivity|]);
      apply (forEachFrom_Forall2 PackedItemData_eq); try assumption;
      intros x y idx Hxy;
      first [ now apply placeValidated_eq | now apply placeClamped_eq ]. }
  destruct Hgoal as [H1 H2]. split; [exact H1|]. split; [exact H2|].
  intros E1 E2. subst C1 C2. now rewrite E1, E2.
Qed.

(** An instance: a unit cube in a 2 x 2 x 2 container, with the
    numbers written as [1] and [2] in one run and as [3 # 3] and [4 # 2] in
    the other. *)
Lemma resolution_deterministic_witness :
  console (resolve (container (containerOfSize 2 2 2))
                   [packedItem 1 0 0 1 1 1]) =
  console (resolve (container (containerOfSize (4 # 2) 2 2))
                   [packedItem (3 # 3) 0 0 1 (3 # 3) 1]).
Proof.
  apply (resolution_is_deterministic
           (containerOfSize 2 2 2) (containerOfSize (4 # 2) 2 2)
           [packedItem 1 0 0 1 1 1] [packedItem (3 # 3) 0 0 1 (3 # 3) 1]).
  - repeat split; reflexivity.
  - constructor; [|constructor].
    split; [reflexivity|]. split; [|repeat split; reflexivity].
    constructor. repeat constructor.
Defined.

(* ================================================================== *)
(** ** Raw positions are read positionally *)

Lemma nth_error_nth_JsNumber (elems : list JsNumber) (k : nat) :
  orElse (nullish (nth_error elems k) (Some 0)) 0 = orElse (nth k elems None) 0.
Proof.
  revert k. induction elems as [|e rest IH]; intro k.
  - destruct k; reflexivity.
  - destruct k as [|k]; [reflexivity | apply IH].
Qed.

(** The test [pos.length >= 3] does not change what an array yields: an
    array of any length is read entry by entry, a missing or non-numeric
    entry counts as 0 and entries after the third are ignored.  An array is
    read like the object with its entries under [x], [y] and [z], and in an
    object the keys [x], [y], [z] take precedence over [0], [1], [2]. *)
Theorem parsePositionRaw_positional (elems : list JsNumber) :
  parsePositionRaw (PosArray elems) =
  (orElse (nth 0 elems None) 0, orElse (nth 1 elems None) 0,
   orElse (nth 2 elems None) 0) /\
  parsePositionRaw (PosArray elems) = parsePositionRaw (PosArray (firstn 3 elems)) /\
  parsePositionRaw (PosArray elems) =
  parsePositionRaw (PosObject (nth_error elems 0) (nth_error elems 1)
                              (nth_error elems 2) None None None) /\
  (forall x y z i0 i1 i2,
      parsePositionRaw (PosObject (Some x) (Some y) (Some z) i0 i1 i2) =
      (orElse x 0, orElse y 0, orElse z 0)) /\
  (forall i0 i1 i2,
      parsePositionRaw (PosObject None None None i0 i1 i2) =
      parsePositionRaw (PosArray (map (fun i => nullish i None) [i0; i1; i2]))).
Proof.
  assert (H : forall e,
             parsePositionRaw (PosArray e) =
             (orElse (nth 0 e None) 0, orElse (nth 1 e None) 0,
              orElse (nth 2 e None) 0)).
  { intro e. cbn [parsePositionRaw].
    destruct (3 <=? List.length e)%nat; [reflexivity|].
    now rewrite !nth_error_nth_JsNumber. }
  split; [apply H|]. split.
  - rewrite !H. destruct elems as [|a [|b [|c rest]]]; reflexivity.
  - split.
    + rewrite H. cbn [parsePositionRaw nullish].
      now rewrite !nth_error_nth_JsNumber.
    + split; [reflexivity|].
      intros i0 i1 i2. rewrite H. cbn [parsePositionRaw nullish map nth].
      destruct i0 as [[a|]|], i1 as [[b|]|], i2 as [[c|]|]; reflexivity.
Qed.

(* ================================================================== *)
(** ** What the overflow count counts *)



(* ================================================================== *)
(** ** One box per packed item *)

Lemma colorAt_palette (idx : nat) :
  In (colorAt idx) colorList /\ colorAt (idx + 7) = colorAt idx.
Proof.
  unfold colorAt. change (List.length colorList) with 7%nat. split.
  - apply nth_In. change (List.length colorList) with 7%nat.
    apply Nat.mod_upper_bound. discriminate.
  - replace (idx + 7)%nat with (idx + 1 * 7)%nat by lia.
    now rewrite Nat.Div0.mod_add.
Qed.

Lemma resolve_group_cases (C : Container) (items : list PackedItemData) :
  (exists fn, group (resolve C items) = forEach (placeValidated C fn) items) \/
  group (resolve C items) = forEach (placeClamped C) items.
Proof.
  pose proof (resolve_cases C items) as Hc. cbv zeta in Hc. rewrite Hc.
  repeat match goal with
         | |- context [Nat.eqb ?n 0] => destruct (Nat.eqb n 0)
         end; cbn [group]; eauto.
Qed.

(** With packed items the scene holds exactly one box per item, in the order
    of the items, on the branch that validates as on the branch that clamps
    and in the version that always clamps: the box of item [idx] has the
    dimensions of that item, with 0.1 for a zero or non-numeric one, a
    geometry scaled by [sceneScale], and the colour [idx mod 7] of the
    palette. *)
Theorem one_box_per_packed_item
        (containerDimensions : ContainerDim) (boxDimensions : list BoxDim)
        (packedItemsData : list PackedItemData) :
  packedItemsData <> [] ->
  let C := container containerDimensions in
  let describes (boxes : list Placed) :=
    List.length boxes = List.length packedItemsData /\
    forall idx item,
      nth_error packedItemsData idx = Some item ->
      exists p,
        nth_error boxes idx = Some p /\
        dims p = placementDims item /\
        geometry (mesh p) =
        (dims_l (dims p) * sceneScale C, dims_h (dims p) * sceneScale C,
         dims_w (dims p) * sceneScale C) /\
        color (mesh p) = colorAt idx /\
        In (color (mesh p)) colorList /\
        colorAt (idx + 7) = colorAt idx in
  describes (group (render containerDimensions boxDimensions
                           (Some packedItemsData))) /\
  describes (Shipped.render containerDimensions boxDimensions
                            (Some packedItemsData)).
Proof.
  intros Hne C describes.
  assert (Hgen : forall f : PackedItemData -> nat -> Placed,
             (forall item idx,
                 dims (f item idx) = placementDims item /\
                 geometry (mesh (f item idx)) =
                 (dims_l (dims (f item idx)) * sceneScale C,
                  dims_h (dims (f item idx)) * sceneScale C,
                  dims_w (dims (f item idx)) * sceneScale C) /\
                 color (mesh (f item idx)) = colorAt idx) ->
             describes (forEach f packedItemsData)).
  { intros f Hf. split; [apply forEachFrom_length|].
    intros idx item Hitem. exists (f item idx). split.
    - unfold forEach. now rewrite forEachFrom_nth_error, Hitem.
    - destruct (Hf item idx) as (Hd & Hg & Hc).
      rewrite Hc. pose proof (colorAt_palette idx) as [Hin Hper]. auto. }
  split.
  - rewrite render_nonempty by exact Hne. fold C.
    destruct (resolve_group_cases C packedItemsData) as [[fn ->] | ->];
      apply Hgen; intros; repeat split.
  - unfold Shipped.render, Shipped.createBoxesGroup. fold C.
    destruct packedItemsData; [contradiction|]. cbn [List.length Nat.ltb Nat.leb].
    apply Hgen; intros; repeat split.
Qed.

(** An instance: eight unit cubes in a row; the eighth has the colour of the
    first. *)
Lemma one_box_per_packed_item_witness :
  List.length
    (group (render (containerOfSize 8 1 1) []
                   (Some (map (fun k => packedItem (inject_Z k) 0 0 1 1 1)
                              [0; 1; 2; 3; 4; 5; 6; 7]%Z)))) = 8%nat.
Proof.
  destruct (one_box_per_packed_item
              (containerOfSize 8 1 1) []
              (map (fun k => packedItem (inject_Z k) 0 0 1 1 1)
                   [0; 1; 2; 3; 4; 5; 6; 7]%Z)) as [[H _] _].
  - discriminate.
  - exact H.
Defined.

(* ================================================================== *)
(** ** The clamp of the version without the search *)

Lemma clamp_axis_one_step (raw itemDim containerDim : Q) :
  clampedAxis raw (Math_max 0 (Math_min raw (containerDim - itemDim)))
              itemDim containerDim.
Proof.
  unfold clampedAxis.
  destruct (Math_min_cases raw (containerDim - itemDim))
    as [[H1 E1] | [H1 E1]]; rewrite E1;
    match goal with
    | |- context [Math_max 0 ?a] =>
        destruct (Math_max_cases 0 a) as [[H2 E2] | [H2 E2]]; rewrite E2
    end;
    (split; [|split]); intros; lra.
Qed.

(** The version that always clamps, on every packed item and without any
    validation: on each axis the corner of the box lies in
    [0, containerDim - itemDim] when the item fits, is 0 when the item is
    larger than the container, and is the raw coordinate when that lies in
    the interval.  A box whose three dimensions are not negative and that
    fits on the three axes is therefore drawn inside the container, wherever
    the raw position is. *)
Theorem shipped_clamp_bounds
        (containerDimensions : ContainerDim) (boxDimensions : list BoxDim)
        (packedItemsData : list PackedItemData) (idx : nat)
        (item : PackedItemData) :
  nth_error packedItemsData idx = Some item ->
  let C := container containerDimensions in
  exists p,
    nth_error (Shipped.render containerDimensions boxDimensions
                              (Some packedItemsData)) idx = Some p /\
    dims p = placementDims item /\
    clampedAxis (vx (parsePositionRaw (item_position item)))
                (vx (minCorner p)) (dims_l (dims p)) (containerLength C) /\
    clampedAxis (vy (parsePositionRaw (item_position item)))
                (vy (minCorner p)) (dims_h (dims p)) (containerHeight C) /\
    clampedAxis (vz (parsePositionRaw (item_position item)))
                (vz (minCorner p)) (dims_w (dims p)) (containerWidth C) /\
    (0 <= dims_l (dims p) <= containerLength C ->
     0 <= dims_h (dims p) <= containerHeight C ->
     0 <= dims_w (dims p) <= containerWidth C ->
     insideContainer C p).
Proof.
  intros Hitem C. exists (Shipped.placeBox C item idx).
  unfold Shipped.render, Shipped.createBoxesGroup. fold C.
  destruct packedItemsData as [|a rest]; [destruct idx; discriminate|].
  cbn [List.length Nat.ltb Nat.leb].
  split; [unfold forEach; now rewrite forEachFrom_nth_error, Hitem|].
  split; [reflexivity|].
  assert (Hx : clampedAxis (vx (parsePositionRaw (item_position item)))
                           (vx (minCorner (Shipped.placeBox C item idx)))
                           (dims_l (dims (Shipped.placeBox C item idx)))
                           (containerLength C)) by apply clamp_axis_one_step.
  assert (Hy : clampedAxis (vy (parsePositionRaw (item_position item)))
                           (vy (minCorner (Shipped.placeBox C item idx)))
                           (dims_h (dims (Shipped.placeBox C item idx)))
                           (containerHeight C)) by apply clamp_axis_one_step.
  assert (Hz : clampedAxis (vz (parsePositionRaw (item_position item)))
                           (vz (minCorner (Shipped.placeBox C item idx)))
                           (dims_w (dims (Shipped.placeBox C item idx)))
                           (containerWidth C)) by apply clamp_axis_one_step.
  split; [exact Hx|]. split; [exact Hy|]. split; [exact Hz|].
  intros [Hl0 Hl] [Hh0 Hh] [Hw0 Hw]. unfold insideContainer, axisWithin.
  destruct Hx as (Hx & _), Hy as (Hy & _), Hz as (Hz & _).
  specialize (Hx Hl). specialize (Hy Hh). specialize (Hz Hw).
  repeat split; lra.
Qed.

(** An instance: a unit cube reported at [(5, -1, 1.5)] is drawn at
    [(1, 0, 1)] in a 2 x 2 x 2 container. *)
Lemma shipped_clamp_bounds_witness :
  exists p,
    nth_error (Shipped.render (containerOfSize 2 2 2) []
                              (Some [packedItem 5 (-1) 1.5 1 1 1])) 0
    = Some p /\
    insideContainer (container (containerOfSize 2 2 2)) p.
Proof.
  destruct (shipped_clamp_bounds (containerOfSize 2 2 2) []
                                 [packedItem 5 (-1) 1.5 1 1 1] 0%nat
                                 (packedItem 5 (-1) 1.5 1 1 1) eq_refl)
    as (p & Hp & Hd & _ & _ & _ & Hin).
  exists p. split; [exact Hp|].
  apply Hin; rewrite Hd; vm_compute; split; discriminate.
Defined.

(* ================================================================== *)
(** ** The scene is a faithful picture of the container *)

Lemma scaled_nonneg (a s : Q) : 0 < s -> (0 <= a * s <-> 0 <= a).
Proof.
  intro Hs. rewrite <- (Qmult_le_r 0 a s Hs).
  now setoid_replace (0 * s) with 0 by ring.
Qed.

(** [a <= b] read on the difference, when the difference is a multiple of
    the scale. *)
Lemma le_by_scaled_difference (a b x y s : Q) :
  0 < s -> b - a == (y - x) * s -> (a <= b <-> x <= y).
Proof.
  intros Hs Hd. transitivity (0 <= y - x); [|split; intro; lra].
  rewrite <- (scaled_nonneg (y - x) s Hs), <- Hd.
  split; intro H; lra.
Qed.

Lemma Qabs_scaled (d s : Q) :
  0 < s ->
  (0 <= d /\ Qabs (d * s) == d * s) \/ (d < 0 /\ Qabs (d * s) == - (d * s)).
Proof.
  intro Hs. destruct (Qlt_le_dec d 0) as [Hd | Hd]; [right | left];
    (split; [exact Hd|]).
  - apply Qabs_neg.
    assert (H : 0 <= (- d) * s)
      by (apply Qmult_le_0_compat; [lra | now apply Qlt_le_weak]).
    setoid_replace (d * s) with (- ((- d) * s)) by ring. lra.
  - apply Qabs_pos. apply Qmult_le_0_compat; [exact Hd | now apply Qlt_le_weak].
Qed.

(** One axis: the mesh of the box, of size [dim * s] around the centre [m],
    lies within the mesh of the container, of size [containerDim * s] around
    the centre [k], exactly when both ends of the box lie in
    [0, containerDim]. *)
Lemma axis_inside (corner dim containerDim s k m : Q) :
  0 < s -> 0 < containerDim ->
  m == k + (corner + dim / 2 - containerDim / 2) * s ->
  (k - Qabs (containerDim * s) / 2 <= m - Qabs (dim * s) / 2 /\
   m + Qabs (dim * s) / 2 <= k + Qabs (containerDim * s) / 2) <->
  axisWithin 0 corner dim containerDim.
Proof.
  intros Hs HC Hm. unfold axisWithin.
  destruct (Qabs_scaled containerDim s Hs) as [[_ EC] | [HC' _]]; [|lra].
  rewrite EC, Hm. clear EC Hm m.
  set (m := k + (corner + dim / 2 - containerDim / 2) * s).
  destruct (Qabs_scaled dim s Hs) as [[Hd Ed] | [Hd Ed]]; rewrite Ed; clear Ed.
  - assert (H1 : k - containerDim * s / 2 <= m - dim * s / 2 <-> 0 <= corner)
      by (apply (le_by_scaled_difference _ _ _ _ s Hs); unfold m; field).
    assert (H2 : m + dim * s / 2 <= k + containerDim * s / 2 <->
                 corner + dim <= containerDim)
      by (apply (le_by_scaled_difference _ _ _ _ s Hs); unfold m; field).
    rewrite H1, H2. split; intro H; repeat split; lra.
  - assert (H1 : k - containerDim * s / 2 <= m - - (dim * s) / 2 <->
                 0 <= corner + dim)
      by (apply (le_by_scaled_difference _ _ _ _ s Hs); unfold m; field).
    assert (H2 : m + - (dim * s) / 2 <= k + containerDim * s / 2 <->
                 corner <= containerDim)
      by (apply (le_by_scaled_difference _ _ _ _ s Hs); unfold m; field).
    rewrite H1, H2. split; intro H; repeat split; lra.
Qed.

Lemma sceneMapped_inside (C : Container) (p : Placed) :
  0 < containerLength C -> 0 < containerWidth C -> 0 < containerHeight C ->
  0 < sceneScale C -> sceneMapped C p ->
  (insideContainerMesh C (mesh p) <-> insideContainer C p).
Proof.
  intros HL HW HH Hs [(Hx & Hy & Hz) Hg].
  unfold insideContainerMesh, insideContainer, boxLower, boxUpper,
    contGeometry, contMeshPosition.
  rewrite Hg. cbn [vx vy vz fst snd] in *.
  rewrite <- (axis_inside (vx (minCorner p)) (dims_l (dims p))
                          (containerLength C) (sceneScale C) 0
                          (fst (fst (meshPosition (mesh p)))) Hs HL)
    by (rewrite Hx; ring).
  rewrite <- (axis_inside (vy (minCorner p)) (dims_h (dims p))
                          (containerHeight C) (sceneScale C)
                          (containerHeight C * sceneScale C / 2)
                          (snd (fst (meshPosition (mesh p)))) Hs HH)
    by (rewrite Hy; field).
  rewrite <- (axis_inside (vz (minCorner p)) (dims_w (dims p))
                          (containerWidth C) (sceneScale C) 0
                          (snd (meshPosition (mesh p))) Hs HW)
    by (rewrite Hz; ring).
  tauto.
Qed.

Lemma placeBox_mapped (C : Container) (item : PackedItemData) (idx : nat) :
  sceneMapped C (Shipped.placeBox C item idx).
Proof. split; [apply Vec3_eq_refl | reflexivity]. Qed.

(** Every box either version adds to the scene, whichever branch adds it, is
    mapped to the scene by the same formula. *)
Lemma scene_boxes_mapped (C : Container) (boxDimensions : list BoxDim)
      (items : list PackedItemData) (p : Placed) :
  In p (group (resolve C items)) \/
  In p (forEach (Shipped.placeBox C) items) \/
  In p (fallbackGreedy C boxDimensions) ->
  sceneMapped C p.
Proof.
  intros [Hp | [Hp | Hp]].
  - now apply resolve_mapped in Hp.
  - apply forEach_In in Hp as (idx & x & _ & ->). apply placeBox_mapped.
  - now apply shelfLoop_mapped in Hp.
Qed.

(** For a container with positive dimensions and a positive scale, and for
    every box either version adds to the scene (validated, clamped or laid
    out by the fallback), the mesh of the box lies within the mesh of the
    container exactly when the box that is drawn, which reaches from its
    corner to its corner plus its dimension on each axis, lies within the
    container: the mapping to scene coordinates neither hides an overflow
    nor shows one that is not there.  A mesh reaches half the absolute value
    of its size to either side of its centre, so this holds for negative
    dimensions as well. *)
Theorem scene_shows_containment
        (C : Container) (boxDimensions : list BoxDim)
        (items : list PackedItemData) (p : Placed) :
  0 < containerLength C -> 0 < containerWidth C -> 0 < containerHeight C ->
  0 < sceneScale C ->
  In p (group (resolve C items)) \/
  In p (forEach (Shipped.placeBox C) items) \/
  In p (fallbackGreedy C boxDimensions) ->
  (insideContainerMesh C (mesh p) <-> insideContainer C p).
Proof.
  intros HL HW HH Hs Hp. apply sceneMapped_inside; try assumption.
  now apply (scene_boxes_mapped C boxDimensions items).
Qed.

(** An instance: a box of length -1 at the origin of a 2 x 2 x 2 container,
    which the version without the search draws on [-1, 0] along the
    length. *)
Lemma scene_shows_containment_witness :
  let C := container (containerOfSize 2 2 2) in
  let p := Shipped.placeBox C (packedItem 0 0 0 (-1) 1 1) 0 in
  insideContainerMesh C (mesh p) <-> insideContainer C p.
Proof.
  intros C p.
  apply (scene_shows_containment C [] [packedItem 0 0 0 (-1) 1 1] p);
    try reflexivity.
  right. left. left. reflexivity.
Defined.

(* ================================================================== *)
(** ** More on the fallback greedy placement *)

Section ShelfLayout.

Variable C : Container.

(** Where the boxes placed from a given state of the loop can go: further
    along the current row, or in a row beyond it. *)
Lemma shelfLoop_future (its : list Instance) :
  Forall (fun it => 0 <= inst_l it) its ->
  forall cur q,
    0 <= layerHeight cur ->
    In q (shelfLoop C cur its) ->
    (vz (minCorner q) == cursorZ cur /\ cursorX cur <= vx (minCorner q)) \/
    cursorZ cur + layerHeight cur + padding <= vz (minCorner q).
Proof.
  induction 1 as [|it rest Hl _ IH]; intros cur q Hh Hq; [contradiction|].
  assert (Hw : 0 <= layerHeight (wrapRow C cur it)).
  { unfold wrapRow. destruct (Qgtb _ _); cbn; lra. }
  assert (Hrow :
            (cursorZ (wrapRow C cur it) == cursorZ cur /\
             cursorX cur <= cursorX (wrapRow C cur it) /\
             layerHeight cur <= layerHeight (wrapRow C cur it)) \/
            cursorZ cur + layerHeight cur + padding
            <= cursorZ (wrapRow C cur it)).
  { unfold wrapRow. destruct (Qgtb _ _); cbn; [right | left]; lra. }
  destruct (Qlt_le_dec (containerWidth C)
                       (cursorZ (wrapRow C cur it) + inst_w it)) as [Hs | Hs].
  - rewrite (shelfLoop_stop C cur it rest Hs) in Hq. contradiction.
  - destruct (shelfLoop_place C cur it rest Hs) as (p & E & Hc & Hd).
    rewrite E in Hq.
    assert (Hq' :
              (vz (minCorner q) == cursorZ (wrapRow C cur it) /\
               cursorX (wrapRow C cur it) <= vx (minCorner q)) \/
              cursorZ (wrapRow C cur it) + layerHeight (wrapRow C cur it)
              + padding <= vz (minCorner q)).
    { destruct Hq as [<- | Hq].
      - rewrite Hc. cbn. left. split; [reflexivity | lra].
      - apply IH in Hq.
        + cbn [cursorX cursorZ layerHeight] in Hq.
          pose proof (Math_max_is_max (layerHeight (wrapRow C cur it))
                                      (inst_w it)) as (Hm & _).
          unfold padding in *. destruct Hq as [[Hz Hx] | Hz];
            [left; split; [exact Hz | lra] | right; lra].
        + cbn. pose proof (Math_max_is_max (layerHeight (wrapRow C cur it))
                                           (inst_w it)) as (Hm & _). lra. }
    unfold padding in *.
    destruct Hrow as [(Hz & Hx & Hlh) | Hz]; destruct Hq' as [[Hz' Hx'] | Hz'];
      first [ left; split; [rewrite Hz'; exact Hz | lra] | right; lra ].
Qed.

Lemma shelfLoop_separated (its : list Instance) :
  Forall (fun it => 0 <= inst_l it) its ->
  forall cur, 0 <= layerHeight cur ->
              ForallOrdPairs placedBefore (shelfLoop C cur its).
Proof.
  induction 1 as [|it rest Hl Hrest IH]; intros cur Hh; [constructor|].
  assert (Hw : 0 <= layerHeight (wrapRow C cur it)).
  { unfold wrapRow. destruct (Qgtb _ _); cbn; lra. }
  destruct (Qlt_le_dec (containerWidth C)
                       (cursorZ (wrapRow C cur it) + inst_w it)) as [Hs | Hs].
  - rewrite (shelfLoop_stop C cur it rest Hs). constructor.
  - destruct (shelfLoop_place C cur it rest Hs) as (p & E & Hc & Hd).
    rewrite E.
    pose proof (Math_max_is_max (layerHeight (wrapRow C cur it)) (inst_w it))
      as (Hm1 & Hm2 & _).
    constructor.
    + apply Forall_forall. intros q Hq.
      apply (shelfLoop_future rest Hrest) in Hq; [|cbn; lra].
      cbn [cursorX cursorZ layerHeight] in Hq.
      unfold placedBefore. rewrite Hc, Hd. cbn [vx vz fst snd dims_l dims_w].
      unfold padding in *.
      destruct Hq as [[Hz Hx] | Hz]; [left; split; [exact Hz | lra] | right; lra].
    + apply IH. cbn. lra.
Qed.

(** When every instance is at most as long as the container, and not of
    negative length, every box that is placed lies on the floor rectangle of
    the container. *)
Lemma shelfLoop_on_floor (its : list Instance) :
  Forall (fun it => 0 <= inst_l it <= containerLength C) its ->
  forall cur p,
    0 <= cursorX cur ->
    In p (shelfLoop C cur its) ->
    0 <= vx (minCorner p) /\
    vx (minCorner p) + dims_l (dims p) <= containerLength C /\
    vy (minCorner p) = 0.
Proof.
  induction 1 as [|it rest [Hl0 Hl] _ IH]; intros cur p Hx Hp; [contradiction|].
  assert (Hw : 0 <= cursorX (wrapRow C cur it) /\
               cursorX (wrapRow C cur it) + inst_l it <= containerLength C).
  { unfold wrapRow. destruct (Qgtb _ _) eqn:E; cbn; [lra|].
    apply Qgtb_false in E. lra. }
  destruct (Qlt_le_dec (containerWidth C)
                       (cursorZ (wrapRow C cur it) + inst_w it)) as [Hs | Hs].
  - rewrite (shelfLoop_stop C cur it rest Hs) in Hp. contradiction.
  - destruct (shelfLoop_place C cur it rest Hs) as (q & E & Hc & Hd).
    rewrite E in Hp. destruct Hp as [<- | Hp].
    + rewrite Hc, Hd. cbn. repeat split; lra.
    + apply IH in Hp; [exact Hp|]. cbn. unfold padding. lra.
Qed.

(** The boxes placed are the first instances, in their order. *)
Lemma shelfLoop_prefix (its : list Instance) :
  forall cur,
    map dims (shelfLoop C cur its) =
    map instanceDims (firstn (List.length (shelfLoop C cur its)) its).
Proof.
  induction its as [|it rest IH]; intro cur; [reflexivity|].
  cbn [shelfLoop]. destruct (Qgtb _ _); [reflexivity|].
  cbn [map List.length firstn dims]. f_equal. apply IH.
Qed.

End ShelfLayout.

Lemma instances_In (boxDimensions : list BoxDim) (it : Instance) :
  In it (instances boxDimensions) ->
  exists b, In b boxDimensions /\
            inst_l it = convertToMeters (orElse (box_length b) 0.1)
                                        (Some (box_unit b)) /\
            inst_w it = convertToMeters (orElse (box_width b) 0.1)
                                        (Some (box_unit b)) /\
            inst_h it = convertToMeters (orElse (box_height b) 0.1)
                                        (Some (box_unit b)).
Proof.
  unfold instances. intro H. apply in_concat in H as (l & Hl & Hit).
  apply forEach_In in Hl as (idx & b & Hb & ->).
  apply nth_error_In in Hb. exists b. split; [exact Hb|].
  unfold pushInstances in Hit. apply repeat_spec in Hit. now subst it.
Qed.

Lemma convertToMeters_nonneg (v : Q) (u : option string) :
  0 <= v -> 0 <= convertToMeters v u.
Proof.
  intro Hv. unfold convertToMeters.
  assert (Hdiv : forall c, 0 < c -> 0 <= v / c).
  { intros c Hc. apply Qmult_le_0_compat; [exact Hv|].
    apply Qlt_le_weak. now apply Qinv_lt_0_compat. }
  destruct (String.eqb _ "cm"); [now apply Hdiv|].
  destruct (String.eqb _ "mm"); [now apply Hdiv|].
  destruct (String.eqb _ "in"); lra.
Qed.

Lemma instances_nonneg_length (boxDimensions : list BoxDim) :
  Forall (fun b => forall q, box_length b = Some q -> 0 <= q) boxDimensions ->
  Forall (fun it => 0 <= inst_l it) (instances boxDimensions).
Proof.
  intro H. apply Forall_forall. intros it Hit.
  apply instances_In in Hit as (b & Hb & -> & _).
  rewrite Forall_forall in H. specialize (H b Hb).
  apply convertToMeters_nonneg.
  destruct (box_length b) as [q|]; cbn; [|lra].
  specialize (H q eq_refl). destruct (Qeq_bool q 0); lra.
Qed.

Lemma instances_nonneg_width (boxDimensions : list BoxDim) :
  Forall (fun b => forall q, box_width b = Some q -> 0 <= q) boxDimensions ->
  Forall (fun it => 0 <= inst_w it) (instances boxDimensions).
Proof.
  intro H. apply Forall_forall. intros it Hit.
  apply instances_In in Hit as (b & Hb & _ & -> & _).
  rewrite Forall_forall in H. specialize (H b Hb).
  apply convertToMeters_nonneg.
  destruct (box_width b) as [q|]; cbn; [|lra].
  specialize (H q eq_refl). destruct (Qeq_bool q 0); lra.
Qed.

(** Every box of the layout has the dimensions of one of the instances. *)
Lemma shelfLoop_dims_In (C : Container) (its : list Instance) :
  forall cur p,
    In p (shelfLoop C cur its) -> exists it, In it its /\ dims p = instanceDims it.
Proof.
  induction its as [|it rest IH]; intros cur p Hp; [contradiction|].
  cbn [shelfLoop] in Hp. destruct (Qgtb _ _); [contradiction|].
  destruct Hp as [<- | Hp].
  - exists it. split; [now left | reflexivity].
  - apply IH in Hp as (it' & Hin & E). exists it'. split; [now right | exact E].
Qed.

Lemma ForallOrdPairs_impl_In {A : Type} (R S : A -> A -> Prop) (l : list A) :
  (forall a b, In a l -> In b l -> R a b -> S a b) ->
  ForallOrdPairs R l -> ForallOrdPairs S l.
Proof.
  intros HRS H. induction H as [|a l Ha _ IH]; constructor.
  - rewrite Forall_forall in *. intros b Hb.
    apply HRS; [now left | now right | now apply Ha].
  - apply IH. intros x y Hx Hy. apply HRS; now right.
Qed.

(** For boxes with no negative length and no negative width, what the cursor
    ensures is a separation of the boxes that are drawn. *)
Lemma placedBefore_placedApart (p q : Placed) :
  0 <= dims_l (dims p) -> 0 <= dims_w (dims p) ->
  0 <= dims_l (dims q) -> 0 <= dims_w (dims q) ->
  placedBefore p q -> placedApart p q.
Proof.
  unfold placedBefore, placedApart, endsBefore, padding.
  intros Hlp Hwp Hlq Hwq [[Hz Hb] | Hb]; [left; split; [exact Hz|] | right];
    repeat split; lra.
Qed.

Lemma placedApart_floorDisjoint (p q : Placed) :
  placedApart p q -> floorDisjoint p q.
Proof.
  unfold placedApart, endsBefore, floorDisjoint, coversFloorPoint, between,
    padding.
  intros Hb x z [[Hpx Hpz] [Hqx Hqz]].
  destruct Hb as [[_ Hb] | Hb].
  - destruct Hpx as [Hpx | Hpx], Hqx as [Hqx | Hqx]; lra.
  - destruct Hpz as [Hpz | Hpz], Hqz as [Hqz | Hqz]; lra.
Qed.

(** The fallback layout never makes two boxes overlap on the floor: when no
    box of the form has a negative length or a negative width, no point of
    the floor lies under two of the placed boxes, and of two placed boxes
    the earlier one ends at least the padding before the later one starts,
    along the length in the same row or along the width between rows. *)
Theorem fallback_boxes_are_separated (C : Container)
        (boxDimensions : list BoxDim) :
  Forall (fun b => (forall q, box_length b = Some q -> 0 <= q) /\
                   (forall q, box_width b = Some q -> 0 <= q))
         boxDimensions ->
  ForallOrdPairs (fun p q => floorDisjoint p q /\ placedApart p q)
                 (fallbackGreedy C boxDimensions).
Proof.
  intro H.
  assert (Hl : Forall (fun it => 0 <= inst_l it) (instances boxDimensions)).
  { apply instances_nonneg_length. eapply Forall_impl; [|exact H].
    intros b Hb. apply Hb. }
  assert (Hw : Forall (fun it => 0 <= inst_w it) (instances boxDimensions)).
  { apply instances_nonneg_width. eapply Forall_impl; [|exact H].
    intros b Hb. apply Hb. }
  assert (Hdims : forall p, In p (fallbackGreedy C boxDimensions) ->
                            0 <= dims_l (dims p) /\ 0 <= dims_w (dims p)).
  { intros p Hp. apply shelfLoop_dims_In in Hp as (it & Hit & ->).
    rewrite Forall_forall in Hl, Hw. split; [now apply Hl | now apply Hw]. }
  apply (ForallOrdPairs_impl_In placedBefore).
  - intros p q Hp Hq Hb.
    destruct (Hdims p Hp) as [Hlp Hwp]. destruct (Hdims q Hq) as [Hlq Hwq].
    assert (Ha : placedApart p q) by now apply placedBefore_placedApart.
    split; [now apply placedApart_floorDisjoint | exact Ha].
  - apply shelfLoop_separated; [exact Hl | cbn; lra].
Qed.

Lemma fallback_boxes_are_separated_witness :
  ForallOrdPairs (fun p q => floorDisjoint p q /\ placedApart p q)
                 (fallbackGreedy (container (containerOfSize 3 2 2))
                                 [boxOfSize 1 1 1 5; boxOfSize 2 (1 # 2) 1 2]).
Proof.
  apply fallback_boxes_are_separated.
  repeat constructor; intros q E; inversion E; subst q; vm_compute;
    discriminate.
Defined.

(** When no instance has a negative length or a negative width and every
    instance is at most as long as the container, every box of the fallback
    layout stands on the floor rectangle of the container: [0 <= x],
    [x + length <= containerLength], [0 <= z], [z + width <= containerWidth],
    [y = 0].  The height is never tested: such a box is drawn inside the
    container exactly when its height is not negative and not larger than
    the height of the container. *)
Theorem fallback_boxes_on_floor (C : Container) (boxDimensions : list BoxDim)
        (p : Placed) :
  Forall (fun it => 0 <= inst_l it <= containerLength C /\ 0 <= inst_w it)
         (instances boxDimensions) ->
  In p (fallbackGreedy C boxDimensions) ->
  0 <= dims_l (dims p) /\ 0 <= dims_w (dims p) /\
  0 <= vx (minCorner p) /\
  vx (minCorner p) + dims_l (dims p) <= containerLength C /\
  0 <= vz (minCorner p) /\
  vz (minCorner p) + dims_w (dims p) <= containerWidth C /\
  vy (minCorner p) = 0 /\
  (insideContainer C p <-> 0 <= dims_h (dims p) <= containerHeight C).
Proof.
  intros Hfit Hp.
  assert (Hlen : Forall (fun it => 0 <= inst_l it <= containerLength C)
                        (instances boxDimensions)).
  { eapply Forall_impl; [|exact Hfit]. intros it Hit. apply Hit. }
  destruct (shelfLoop_on_floor C _ Hlen cursor0 p) as (Hx0 & Hx1 & Hy);
    [cbn; lra | exact Hp |].
  destruct (shelfLoop_width_invariant C (instances boxDimensions) cursor0)
    with (p := p) as (Hz0 & Hz1); [cbn; lra | cbn; lra | exact Hp |].
  assert (Hd : 0 <= dims_l (dims p) /\ 0 <= dims_w (dims p)).
  { pose proof Hp as Hp'.
    apply shelfLoop_dims_In in Hp' as (it & Hit & ->).
    rewrite Forall_forall in Hfit. specialize (Hfit it Hit).
    cbn [instanceDims dims_l dims_w]. split; lra. }
  destruct Hd as [Hl0 Hw0].
  split; [exact Hl0|]. split; [exact Hw0|].
  split; [exact Hx0|]. split; [exact Hx1|]. split; [exact Hz0|].
  split; [exact Hz1|]. split; [exact Hy|].
  unfold insideContainer, axisWithin. rewrite Hy.
  split; [intros (_ & (_ & H3 & _ & H4) & _); split; lra|].
  intros [H3 H4]. repeat split; lra.
Qed.

Lemma fallback_boxes_on_floor_witness :
  let C := container (containerOfSize 3 2 2) in
  let p := nth 1 (fallbackGreedy C [boxOfSize 1 1 1 5])
               (placeClamped C (packedItem 0 0 0 1 1 1) 0) in
  insideContainer C p.
Proof.
  intros C p.
  destruct (fallback_boxes_on_floor C [boxOfSize 1 1 1 5] p)
    as (_ & _ & _ & _ & _ & _ & _ & H).
  - vm_compute. repeat constructor; discriminate.
  - vm_compute. right. left. reflexivity.
  - apply H. vm_compute. split; discriminate.
Defined.


(** Every box of the form yields at least one instance, whatever its
    quantity: a quantity that is not a number, is zero, negative or below 2
    yields exactly one, and a quantity of at least 1 yields its integer part.
    All instances of a box carry the index and the converted dimensions of
    the box. *)
Theorem every_box_yields_an_instance (b : BoxDim) (ix : nat) :
  (1 <= List.length (pushInstances b ix))%nat /\
  (box_quantity b = None -> List.length (pushInstances b ix) = 1%nat) /\
  (forall q, box_quantity b = Some q -> q < 2 ->
             List.length (pushInstances b ix) = 1%nat) /\
  (forall q, box_quantity b = Some q -> 1 <= q ->
             List.length (pushInstances b ix) = Z.to_nat (Qfloor q)) /\
  (forall it, In it (pushInstances b ix) ->
              it = {| inst_l := convertToMeters (orElse (box_length b) 0.1)
                                                (Some (box_unit b));
                      inst_w := convertToMeters (orElse (box_width b) 0.1)
                                                (Some (box_unit b));
                      inst_h := convertToMeters (orElse (box_height b) 0.1)
                                                (Some (box_unit b));
                      inst_idx := ix |}) /\
  (forall boxDimensions,
      (List.length boxDimensions <= List.length (instances boxDimensions))%nat).
Proof.
  assert (Hlen : forall b' ix',
             List.length (pushInstances b' ix') =
             Z.to_nat (Z.max 1 (Qfloor (orElse (box_quantity b') 1)))).
  { intros. unfold pushInstances. now rewrite repeat_length. }
  assert (Hone : forall b' ix', (1 <= List.length (pushInstances b' ix'))%nat).
  { intros. rewrite Hlen. lia. }
  split; [apply Hone|].
  split; [intro E; rewrite Hlen, E; reflexivity|].
  split.
  { intros q E Hq. rewrite Hlen, E. cbn [orElse].
    destruct (Qeq_bool q 0); [reflexivity|].
    assert (Qfloor q < 2)%Z; [|lia].
    rewrite Zlt_Qlt. pose proof (Qfloor_le q) as Hf.
    change (inject_Z 2) with 2. lra. }
  split.
  { intros q E Hq. rewrite Hlen, E. cbn [orElse].
    assert (Qeq_bool q 0 = false) as ->.
    { destruct (Qeq_bool q 0) eqn:Z; [|reflexivity].
      apply Qeq_bool_iff in Z. lra. }
    assert (1 <= Qfloor q)%Z; [|now rewrite Z.max_r].
    change 1%Z with (Qfloor 1). now apply Qfloor_resp_le. }
  split.
  { intros it Hit. unfold pushInstances in Hit.
    now apply repeat_spec in Hit. }
  intro boxDimensions. unfold instances, forEach.
  generalize 0%nat. induction boxDimensions as [|b' rest IH]; intro i;
    [cbn; lia|].
  cbn [forEachFrom List.concat List.length]. rewrite length_app.
  specialize (IH (S i)). specialize (Hone b' i). lia.
Qed.

(* ================================================================== *)
(** ** What the scene does not depend on *)

Lemma pushInstances_sameLayoutFields (a b : BoxDim) (ix : nat) :
  sameLayoutFields a b -> pushInstances a ix = pushInstances b ix.
Proof.
  intros (Hl & Hw & Hh & Hq & Hu). unfold pushInstances.
  now rewrite Hl, Hw, Hh, Hq, Hu.
Qed.

Lemma instances_sameLayoutFields (bs1 bs2 : list BoxDim) :
  Forall2 sameLayoutFields bs1 bs2 -> instances bs1 = instances bs2.
Proof.
  unfold instances, forEach. generalize 0%nat.
  intros i H. revert i. induction H as [|a b r1 r2 Hab _ IH]; intro i;
    [reflexivity|].
  cbn [forEachFrom List.concat].
  now rewrite (pushInstances_sameLayoutFields a b i Hab), IH.
Qed.

(** The weight and the rotation flag of a box never reach the scene: two
    forms that agree on length, width, height, quantity and unit of every
    box give the same scene, in both versions.  And when packed items are
    present the form of the boxes is not read at all. *)
Theorem scene_ignores_weight_and_rotation
        (containerDimensions : ContainerDim)
        (boxes1 boxes2 : list BoxDim)
        (packedItemsData : option (list PackedItemData)) :
  Forall2 sameLayoutFields boxes1 boxes2 \/
  (exists item rest, packedItemsData = Some (item :: rest)) ->
  render containerDimensions boxes1 packedItemsData =
  render containerDimensions boxes2 packedItemsData /\
  Shipped.render containerDimensions boxes1 packedItemsData =
  Shipped.render containerDimensions boxes2 packedItemsData.
Proof.
  unfold render, Shipped.render, Shipped.createBoxesGroup, fallbackGreedy.
  intros [H | (item & rest & ->)].
  - now rewrite (instances_sameLayoutFields _ _ H).
  - split; reflexivity.
Qed.

(** An instance: two forms that differ in weight and rotation only. *)
Lemma scene_ignores_weight_witness :
  render (containerOfSize 3 2 2)
         [ {| box_length := Some 1; box_width := Some 1; box_height := Some 1;
              box_weight := "5"; box_quantity := Some 2; box_rotation := true;
              box_unit := "m" |} ] None =
  render (containerOfSize 3 2 2) [boxOfSize 1 1 1 2] None.
Proof.
  apply (scene_ignores_weight_and_rotation (containerOfSize 3 2 2)).
  left. repeat constructor.
Defined.

(* ================================================================== *)
(** ** The form: sidebars *)

Section FormSidebars.

Import BoxUI.

Lemma click_exclusive (st : Sidebars) (c : SidebarClick) :
  leftSideBar (click st c) && rightSideBar (click st c) = false.
Proof. destruct st as [[] []], c; reflexivity. Qed.

(** Both sidebars are open when the form starts, and never again: after any
    click on a sidebar handle, from any state, at most one sidebar is open,
    and a click that opens a sidebar closes the other one. *)
Theorem sidebars_exclusive_after_click (st : Sidebars)
        (clicks : list SidebarClick) :
  clicks <> [] ->
  let st' := fold_left click clicks st in
  leftSideBar st' && rightSideBar st' = false /\
  st' <> initialSidebars /\
  (leftSideBar (toggleLeftSidebar st) = true ->
   rightSideBar (toggleLeftSidebar st) = false) /\
  (rightSideBar (toggleRightSidebar st) = true ->
   leftSideBar (toggleRightSidebar st) = false).
Proof.
  intros Hne st'.
  assert (H : leftSideBar st' && rightSideBar st' = false).
  { subst st'. revert st Hne.
    induction clicks as [|c rest IH]; intros st Hne; [contradiction|].
    cbn [fold_left]. destruct rest as [|c' rest'].
    - apply click_exclusive.
    - apply IH. discriminate. }
  split; [exact H|]. split.
  - intro E. rewrite E in H. discriminate.
  - destruct st as [[] []]; cbn; auto.
Qed.

Lemma sidebars_exclusive_witness :
  leftSideBar (fold_left click [ClickLeft; ClickRight; ClickRight]
                         initialSidebars)
  && rightSideBar (fold_left click [ClickLeft; ClickRight; ClickRight]
                             initialSidebars) = false.
Proof.
  apply (sidebars_exclusive_after_click
           initialSidebars [ClickLeft; ClickRight; ClickRight]).
  discriminate.
Defined.

End FormSidebars.

(* ================================================================== *)
(** ** The form: the list of boxes *)

Section FormBoxes.

Import BoxUI.

Lemma filterFrom_delete {A : Type} (xs : list A) :
  forall base index,
    filterFrom (fun _ i => negb (Nat.eqb i (base + index))) base xs =
    firstn index xs ++ skipn (S index) xs.
Proof.
  induction xs as [|x rest IH]; intros base index.
  - destruct index; reflexivity.
  - cbn [filterFrom]. destruct index as [|index].
    + rewrite Nat.add_0_r, Nat.eqb_refl. cbn [negb firstn skipn app].
      clear IH. revert base.
      assert (H : forall k base,
                 filterFrom (fun (_ : A) i => negb (Nat.eqb i base))
                            (S k + base) rest = rest).
      { induction rest as [|y r IHr]; intros k base; [reflexivity|].
        cbn [filterFrom].
        replace (Nat.eqb (S k + base) base) with false
          by (symmetry; apply Nat.eqb_neq; lia).
        cbn [negb]. f_equal. apply (IHr (S k)). }
      intro base. apply (H 0%nat).
    + replace (Nat.eqb base (base + S index)) with false
        by (symmetry; apply Nat.eqb_neq; lia).
      cbn [negb firstn skipn app]. f_equal.
      replace (base + S index)%nat with (S base + index)%nat by lia.
      apply IH.
Qed.

Lemma deleteBox_firstn_skipn (index : nat) (prev : list BoxDimensions) :
  deleteBox index prev = firstn index prev ++ skipn (S index) prev.
Proof. unfold deleteBox. apply (filterFrom_delete prev 0 index). Qed.

Lemma deleteBox_nth_before (index i : nat) (prev : list BoxDimensions) :
  (i < index)%nat -> nth_error (deleteBox index prev) i = nth_error prev i.
Proof.
  intro Hi. rewrite deleteBox_firstn_skipn.
  destruct (Nat.lt_ge_cases i (List.length prev)) as [Hl | Hl].
  - rewrite nth_error_app1 by (rewrite length_firstn; lia).
    now rewrite nth_error_firstn, (proj2 (Nat.ltb_lt i index) Hi).
  - rewrite (proj2 (nth_error_None prev i) Hl).
    apply nth_error_None. rewrite length_app, length_firstn, length_skipn.
    lia.
Qed.

Lemma deleteBox_nth_after (index i : nat) (prev : list BoxDimensions) :
  (index <= i)%nat ->
  nth_error (deleteBox index prev) i = nth_error prev (S i).
Proof.
  intro Hi. rewrite deleteBox_firstn_skipn.
  destruct (Nat.lt_ge_cases index (List.length prev)) as [Hl | Hl].
  - rewrite nth_error_app2 by (rewrite length_firstn; lia).
    rewrite length_firstn, nth_error_skipn. f_equal. lia.
  - rewrite (proj2 (nth_error_None prev (S i))) by lia.
    apply nth_error_None. rewrite length_app, length_firstn, length_skipn.
    lia.
Qed.

Lemma deleteBox_length (index : nat) (prev : list BoxDimensions) :
  (index < List.length prev)%nat ->
  S (List.length (deleteBox index prev)) = List.length prev.
Proof.
  intro Hl. rewrite deleteBox_firstn_skipn.
  rewrite length_app, length_firstn, length_skipn. lia.
Qed.

Lemma addBox_length (prev : list BoxDimensions) :
  List.length (addBox prev) = S (List.length prev).
Proof. unfold addBox. rewrite length_app. cbn. lia. Qed.

Lemma addBox_last (prev : list BoxDimensions) :
  nth_error (addBox prev) (List.length prev)
  = Some (newBox (List.length prev + 1)).
Proof.
  unfold addBox. rewrite nth_error_app2 by lia. now rewrite Nat.sub_diag.
Qed.

Lemma addBox_nth_before (prev : list BoxDimensions) (i : nat) :
  (i < List.length prev)%nat ->
  nth_error (addBox prev) i = nth_error prev i.
Proof. intro Hi. unfold addBox. now rewrite nth_error_app1. Qed.

(** [deleteBox] removes the box at the index and nothing else: the boxes
    before and after it stay, in their order; an index beyond the list
    removes nothing; and deleting the box that [addBox] has just added gives
    back the list. *)
Theorem deleteBox_removes_one (index : nat) (prev : list BoxDimensions) :
  deleteBox index prev = firstn index prev ++ skipn (S index) prev /\
  (forall i, (i < index)%nat ->
             nth_error (deleteBox index prev) i = nth_error prev i) /\
  (forall i, (index <= i)%nat ->
             nth_error (deleteBox index prev) i = nth_error prev (S i)) /\
  ((index < List.length prev)%nat ->
   S (List.length (deleteBox index prev)) = List.length prev) /\
  ((List.length prev <= index)%nat -> deleteBox index prev = prev) /\
  deleteBox (List.length prev) (addBox prev) = prev.
Proof.
  split; [apply deleteBox_firstn_skipn|].
  split; [intros i Hi; now apply deleteBox_nth_before|].
  split; [intros i Hi; now apply deleteBox_nth_after|].
  split; [apply deleteBox_length|].
  split.
  { intro Hl. rewrite deleteBox_firstn_skipn, firstn_all2 by exact Hl.
    rewrite skipn_all2 by lia. apply app_nil_r. }
  rewrite deleteBox_firstn_skipn. unfold addBox.
  rewrite firstn_app, firstn_all, Nat.sub_diag. cbn [firstn].
  rewrite skipn_all2 by (rewrite length_app; cbn; lia).
  now rewrite !app_nil_r.
Qed.

(** The name of a new box is made of the number of boxes, not of the names
    in use: after a box other than the last one is deleted, the next box
    added is a second box with the name of the last one. *)
Theorem added_box_repeats_a_name (index : nat) (prev : list BoxDimensions) :
  (index < List.length prev)%nat ->
  let boxes := addBox (deleteBox index (addBox prev)) in
  List.length boxes = S (List.length prev) /\
  nth_error boxes (List.length prev) =
  Some (newBox (List.length prev + 1)) /\
  nth_error boxes (List.length prev - 1) =
  Some (newBox (List.length prev + 1)).
Proof.
  intros Hi boxes.
  assert (Hlen : List.length (deleteBox index (addBox prev))
                 = List.length prev).
  { pose proof (deleteBox_length index (addBox prev)) as H.
    rewrite addBox_length in H. lia. }
  subst boxes. set (inner := deleteBox index (addBox prev)) in *.
  split; [rewrite addBox_length; lia|]. split.
  - pose proof (addBox_last inner) as H. now rewrite Hlen in H.
  - rewrite addBox_nth_before by lia. subst inner.
    rewrite deleteBox_nth_after by lia.
    replace (S (List.length prev - 1)) with (List.length prev) by lia.
    apply addBox_last.
Qed.

Lemma added_box_repeats_a_name_witness :
  nth_error (addBox (deleteBox 0 (addBox initialBoxes))) 0
  = Some (newBox 2) /\
  nth_error (addBox (deleteBox 0 (addBox initialBoxes))) 1
  = Some (newBox 2).
Proof.
  destruct (added_box_repeats_a_name 0 initialBoxes) as (_ & H1 & H2).
  - cbn. lia.
  - split; [exact H2 | exact H1].
Defined.

End FormBoxes.

(* ================================================================== *)
(** ** The form: editing a box *)

Section FormEdits.

Import BoxUI.

Variable Number : string -> JsNumber.

Lemma forEach_update_nth (g : BoxDimensions -> BoxDimensions) (index i : nat)
      (prev : list BoxDimensions) :
  nth_error (forEach (fun box k => if Nat.eqb k index then g box else box)
                     prev) i =
  if Nat.eqb i index then option_map g (nth_error prev i)
  else nth_error prev i.
Proof.
  unfold forEach. rewrite forEachFrom_nth_error. cbn [Nat.add].
  destruct (nth_error prev i) as [box|]; cbn;
    destruct (Nat.eqb i index); reflexivity.
Qed.

Lemma forEach_update_beyond (g : BoxDimensions -> BoxDimensions) (index : nat)
      (prev : list BoxDimensions) :
  (List.length prev <= index)%nat ->
  forEach (fun box k => if Nat.eqb k index then g box else box) prev = prev.
Proof.
  unfold forEach. intro H.
  assert (G : forall base xs,
             (base + List.length xs <= index)%nat ->
             forEachFrom (fun box k => if Nat.eqb k index then g box else box)
                         base xs = xs).
  { intros base xs. revert base.
    induction xs as [|x rest IH]; intros base Hb; [reflexivity|].
    cbn [forEachFrom]. cbn [List.length] in Hb.
    replace (Nat.eqb base index) with false
      by (symmetry; apply Nat.eqb_neq; lia).
    f_equal. apply IH. lia. }
  apply G. lia.
Qed.

Lemma forEach_update_Forall2 {B : Type} (R : B -> B -> Prop)
      (h : BoxDimensions -> B) (f : BoxDimensions -> nat -> BoxDimensions)
      (prev : list BoxDimensions) :
  (forall box i, R (h (f box i)) (h box)) ->
  Forall2 R (map h (forEach f prev)) (map h prev).
Proof.
  intro H. unfold forEach. generalize 0%nat.
  induction prev as [|box rest IH]; intro i; cbn; constructor; auto.
Qed.

Lemma shipped_render_sameLayoutFields (cd : ContainerDim)
      (boxes1 boxes2 : list BoxDim)
      (packed : option (list PackedItemData)) :
  Forall2 sameLayoutFields boxes1 boxes2 ->
  Shipped.render cd boxes1 packed = Shipped.render cd boxes2 packed.
Proof.
  intro H. unfold Shipped.render, Shipped.createBoxesGroup, fallbackGreedy.
  now rewrite (instances_sameLayoutFields _ _ H).
Qed.

Lemma toggleCollapse_nth (index i : nat) (prev : list BoxDimensions) :
  nth_error (toggleCollapse index prev) i =
  if Nat.eqb i index
  then option_map (fun b => setField b FCollapsed (negb (ui_collapsed b)))
                  (nth_error prev i)
  else nth_error prev i.
Proof.
  exact (forEach_update_nth
           (fun b => setField b FCollapsed (negb (ui_collapsed b)))
           index i prev).
Qed.

Lemma updateBoxField_nth (index i : nat) (field : BoxField)
      (value : fieldValue field) (prev : list BoxDimensions) :
  nth_error (updateBoxField index field value prev) i =
  if Nat.eqb i index
  then option_map (fun b => setField b field value) (nth_error prev i)
  else nth_error prev i.
Proof.
  exact (forEach_update_nth (fun b => setField b field value) index i prev).
Qed.

(** An edit of one field of one box leaves the number of boxes and every
    other box as they are, changes the box at the index by that field only,
    and does nothing for an index beyond the list; collapsing a box twice
    gives back the list. *)
Theorem box_edit_touches_one_box (index : nat) (field : BoxField)
        (value : fieldValue field) (prev : list BoxDimensions) :
  List.length (updateBoxField index field value prev) = List.length prev /\
  List.length (toggleCollapse index prev) = List.length prev /\
  (forall i, i <> index ->
             nth_error (updateBoxField index field value prev) i
             = nth_error prev i /\
             nth_error (toggleCollapse index prev) i = nth_error prev i) /\
  nth_error (updateBoxField index field value prev) index =
  option_map (fun box => setField box field value) (nth_error prev index) /\
  ((List.length prev <= index)%nat ->
   updateBoxField index field value prev = prev /\
   toggleCollapse index prev = prev) /\
  toggleCollapse index (toggleCollapse index prev) = prev.
Proof.
  split; [apply forEachFrom_length|]. split; [apply forEachFrom_length|].
  split.
  { intros i Hi. apply Nat.eqb_neq in Hi.
    rewrite updateBoxField_nth, toggleCollapse_nth, Hi. now split. }
  split.
  { now rewrite updateBoxField_nth, Nat.eqb_refl. }
  split.
  { intro H. split.
    - exact (forEach_update_beyond (fun b => setField b field value)
                                   index prev H).
    - exact (forEach_update_beyond
               (fun b => setField b FCollapsed (negb (ui_collapsed b)))
               index prev H). }
  apply nth_error_ext. intro i.
  rewrite !toggleCollapse_nth.
  destruct (Nat.eqb i index); [|reflexivity].
  destruct (nth_error prev i) as [[]|]; cbn; [|reflexivity].
  now rewrite negb_involutive.
Qed.

(** The name, the weight, the rotation flag and the collapsed state of a box
    have no effect on what the viewer draws: an edit of one of these fields,
    like a click that collapses a box, leaves the boxes of the viewer as
    they are. *)
Theorem viewer_ignores_name_weight_rotation
        (c : ContainerDimensions) (packedItems : option (list PackedItemData))
        (index : nat) (field : BoxField) (value : fieldValue field)
        (prev : list BoxDimensions) :
  In field [FWeight; FRotation; FCollapsed; FBoxName] ->
  viewer Number c (updateBoxField index field value prev) packedItems =
  viewer Number c prev packedItems /\
  viewer Number c (toggleCollapse index prev) packedItems =
  viewer Number c prev packedItems.
Proof.
  intro Hf. unfold viewer.
  split; apply shipped_render_sameLayoutFields;
    apply (forEach_update_Forall2 sameLayoutFields (toBoxDim Number));
    intros box i; destruct (Nat.eqb i index);
    try (repeat split; reflexivity).
  destruct Hf as [<- | [<- | [<- | [<- | []]]]]; repeat split; reflexivity.
Qed.

End FormEdits.

Lemma viewer_ignores_rotation_witness :
  let c := {| BoxUI.uc_length := "3"; BoxUI.uc_width := "2";
              BoxUI.uc_height := "2"; BoxUI.uc_maxCapacity := None;
              BoxUI.uc_fit := None; BoxUI.uc_unit := "m" |} in
  BoxUI.viewer sampleNumber c
               (BoxUI.updateBoxField 0 BoxUI.FRotation true BoxUI.initialBoxes)
               None =
  BoxUI.viewer sampleNumber c BoxUI.initialBoxes None.
Proof.
  intro c.
  apply (viewer_ignores_name_weight_rotation
           sampleNumber c None 0 BoxUI.FRotation true BoxUI.initialBoxes).
  cbn. auto.
Defined.

(* ================================================================== *)
(** ** The form: the figures it shows and the request it sends *)

Lemma scale_pos (digits : nat) : 0 < inject_Z (10 ^ Z.of_nat digits).
Proof.
  change 0 with (inject_Z 0). rewrite <- Zlt_Qlt.
  apply Z.pow_pos_nonneg; lia.
Qed.

Lemma rounded_quotient (y s : Q) :
  0 < s ->
  y - (1 # 2) / s <= inject_Z (Qfloor (y * s + (1 # 2))) / s <= y + (1 # 2) / s.
Proof.
  intro Hs.
  pose proof (Qfloor_le (y * s + (1 # 2))) as Hle.
  pose proof (Qlt_floor (y * s + (1 # 2))) as Hlt.
  rewrite inject_Z_plus in Hlt. change (inject_Z 1) with 1 in Hlt.
  set (n := inject_Z (Qfloor (y * s + (1 # 2)))) in *.
  split.
  - apply Qle_shift_div_l; [exact Hs|].
    setoid_replace ((y - (1 # 2) / s) * s) with (y * s - (1 # 2))
      by (field; lra).
    lra.
  - apply Qle_shift_div_r; [exact Hs|].
    setoid_replace ((y + (1 # 2) / s) * s) with (y * s + (1 # 2))
      by (field; lra).
    lra.
Qed.

(** Rounding to [digits] decimals moves a value by at most half a unit of
    the last decimal. *)
Lemma toFixed_bound (digits : nat) (x : Q) :
  x - (1 # 2) / inject_Z (10 ^ Z.of_nat digits) <= BoxUI.toFixed digits x
  <= x + (1 # 2) / inject_Z (10 ^ Z.of_nat digits).
Proof.
  unfold BoxUI.toFixed. cbv zeta.
  pose proof (scale_pos digits) as Hs.
  set (s := inject_Z (10 ^ Z.of_nat digits)) in *.
  destruct (Qle_bool 0 x).
  - now apply rounded_quotient.
  - pose proof (rounded_quotient (- x) s Hs) as [H1 H2].
    set (r := inject_Z (Qfloor (- x * s + (1 # 2))) / s) in *.
    set (e := (1 # 2) / s) in *. split; lra.
Qed.

Lemma sumQ_cons (x : Q) (xs : list Q) : sumQ (x :: xs) = x + sumQ xs.
Proof. reflexivity. Qed.

Lemma sumQ_app (xs ys : list Q) : sumQ (xs ++ ys) == sumQ xs + sumQ ys.
Proof.
  induction xs as [|x rest IH].
  - change (sumQ ys == 0 + sumQ ys). ring.
  - change ((x :: rest) ++ ys) with (x :: (rest ++ ys)).
    rewrite !sumQ_cons, IH. ring.
Qed.

Lemma sumQ_repeat (v : Q) (k : nat) :
  sumQ (repeat v k) == inject_Z (Z.of_nat k) * v.
Proof.
  induction k as [|k IH].
  - change (0 == 0 * v). ring.
  - change (repeat v (S k)) with (v :: repeat v k).
    rewrite sumQ_cons, IH.
    rewrite Nat2Z.inj_succ, <- Z.add_1_r, inject_Z_plus.
    change (inject_Z 1) with 1. ring.
Qed.

Section FormFigures.

Import BoxUI.

Variable Number : string -> JsNumber.

Lemma numberOr_nonempty (s : string) (d : Q) :
  s <> "" -> numberOr Number s d = Number s.
Proof.
  intro H. unfold numberOr. apply String.eqb_neq in H. now rewrite H.
Qed.

Lemma orElse_positive (q d : Q) : 0 < q -> orElse (Some q) d = q.
Proof.
  intro H. cbn. destruct (Qeq_bool q 0) eqn:E; [|reflexivity].
  apply Qeq_bool_iff in E. lra.
Qed.

Lemma totals_fst (boxDimensions : list BoxDimensions) :
  fst (totals Number boxDimensions) ==
  sumQ (map (fun box => zeroIfNaN (boxVolume Number box)) boxDimensions).
Proof.
  unfold totals.
  assert (G : forall bs acc,
             fst (fold_left
                    (fun acc box =>
                       (fst acc + zeroIfNaN (boxVolume Number box),
                        snd acc + boxWeight Number box)) bs acc) ==
             fst acc + sumQ (map (fun box => zeroIfNaN (boxVolume Number box))
                                 bs)).
  { induction bs as [|b rest IH]; intro acc; cbn [fold_left map].
    - change (sumQ []) with 0. ring.
    - rewrite IH, sumQ_cons. cbn [fst]. ring. }
  rewrite G. cbn [fst]. ring.
Qed.

(** The volume a well-formed box adds to the total is the volume of the
    instances the viewer makes of it. *)
Lemma wellFormed_box_volume (box : BoxDimensions) (ix : nat) :
  wellFormed Number box ->
  zeroIfNaN (boxVolume Number box) ==
  sumQ (map instanceVolume (pushInstances (toBoxDim Number box) ix)).
Proof.
  intros (l & w & h & n & Hl0 & Hl & Hlp & Hw0 & Hw & Hwp & Hh0 & Hh & Hhp
          & Hq & Hn).
  assert (Hqty : orElse (Some (inject_Z n)) 1 = inject_Z n).
  { apply orElse_positive. change 0 with (inject_Z 0). rewrite <- Zlt_Qlt. lia. }
  rewrite (pushInstances_quantity (toBoxDim Number box) ix n)
    by (cbn [toBoxDim box_quantity]; assumption).
  cbn [toBoxDim box_length box_width box_height box_unit].
  rewrite map_repeat, sumQ_repeat, Z2Nat.id by lia.
  unfold boxVolume. cbv zeta.
  rewrite !numberOr_nonempty by assumption.
  rewrite Hl, Hw, Hh, Hq, Hqty.
  rewrite !orElse_positive by assumption.
  cbn [convertToMetersN option_map jsMul zeroIfNaN].
  unfold instanceVolume. cbn [inst_l inst_w inst_h]. ring.
Qed.

Lemma wellFormed_total_volume (boxDimensions : list BoxDimensions) :
  Forall (wellFormed Number) boxDimensions ->
  fst (totals Number boxDimensions) ==
  sumQ (map instanceVolume (instances (map (toBoxDim Number) boxDimensions))).
Proof.
  intro H. rewrite totals_fst. unfold instances, forEach.
  generalize 0%nat. induction H as [|box rest Hbox _ IH]; intro i;
    [reflexivity|].
  cbn [map forEachFrom List.concat].
  rewrite sumQ_cons, map_app, sumQ_app, <- (IH (S i)),
    <- (wellFormed_box_volume box i Hbox).
  reflexivity.
Qed.

(** Every instance of a well-formed box has a positive volume. *)
Lemma wellFormed_instance_volume (boxDimensions : list BoxDimensions)
      (it : Instance) :
  Forall (wellFormed Number) boxDimensions ->
  In it (instances (map (toBoxDim Number) boxDimensions)) ->
  0 < instanceVolume it.
Proof.
  intros H Hit. apply instances_In in Hit as (b & Hb & El & Ew & Eh).
  apply in_map_iff in Hb as (box & <- & Hbox).
  rewrite Forall_forall in H. specialize (H box Hbox).
  destruct H as (l & w & h & n & _ & Hl & Hlp & _ & Hw & Hwp & _ & Hh & Hhp
                 & _).
  cbn [toBoxDim box_length box_width box_height box_unit] in El, Ew, Eh.
  rewrite Hl, (orElse_positive l 0.1 Hlp) in El.
  rewrite Hw, (orElse_positive w 0.1 Hwp) in Ew.
  rewrite Hh, (orElse_positive h 0.1 Hhp) in Eh.
  unfold instanceVolume. rewrite El, Ew, Eh.
  repeat apply Qmult_lt_0_compat; now apply convertToMeters_pos.
Qed.

(** The form's total volume counts every instance the quantities ask for,
    whether the viewer can place it or not.  For boxes whose dimensions are
    positive numbers and whose quantities are integers of at least 1, and
    without packed items, the total is the summed volume of the expanded
    instances; the volume of the boxes the viewer draws is at most the
    total, equal to it when no instance is dropped by the layout and
    strictly smaller when one is.  The figure shown differs from the total
    by at most half of the sixth decimal. *)
Theorem total_volume_bounds_the_drawn_volume
        (c : ContainerDimensions) (boxDimensions : list BoxDimensions) :
  Forall (wellFormed Number) boxDimensions ->
  let expanded := instances (map (toBoxDim Number) boxDimensions) in
  let placed := viewer Number c boxDimensions None in
  let total := fst (totals Number boxDimensions) in
  let drawn := sumQ (map placedVolume placed) in
  total == sumQ (map instanceVolume expanded) /\
  drawn <= total /\
  (List.length placed = List.length expanded -> drawn == total) /\
  ((List.length placed < List.length expanded)%nat -> drawn < total) /\
  total - 0.0000005 <= totalBoxVolume Number boxDimensions
  <= total + 0.0000005.
Proof.
  intros H expanded placed total drawn.
  pose proof (wellFormed_total_volume _ H) as E. fold expanded total in E.
  set (k := List.length placed).
  assert (Hdrawn : drawn == sumQ (map instanceVolume (firstn k expanded))).
  { subst drawn k placed. unfold viewer, Shipped.render,
      Shipped.createBoxesGroup, fallbackGreedy. fold expanded.
    pose proof (shelfLoop_prefix (container (toContainerDim Number c))
                                 expanded cursor0) as Hp.
    apply (f_equal (map (fun d => dims_l d * dims_w d * dims_h d))) in Hp.
    rewrite !map_map in Hp.
    change (map (fun x => dims_l (dims x) * dims_w (dims x) * dims_h (dims x)))
      with (map placedVolume) in Hp.
    change (map (fun x => dims_l (instanceDims x) * dims_w (instanceDims x)
                          * dims_h (instanceDims x)))
      with (map instanceVolume) in Hp.
    rewrite Hp. reflexivity. }
  assert (Hsplit : total == sumQ (map instanceVolume (firstn k expanded))
                            + sumQ (map instanceVolume (skipn k expanded))).
  { rewrite E. rewrite <- (firstn_skipn k expanded) at 1.
    now rewrite map_app, sumQ_app. }
  assert (Hpos : forall its,
             (forall it, In it its -> In it expanded) ->
             0 <= sumQ (map instanceVolume its) /\
             (its <> [] -> 0 < sumQ (map instanceVolume its))).
  { induction its as [|it rest IH]; intro Hin.
    - split; [cbn; lra | congruence].
    - cbn [map]. rewrite sumQ_cons.
      assert (Hv : 0 < instanceVolume it)
        by (apply (wellFormed_instance_volume boxDimensions it H), Hin;
            now left).
      destruct IH as [IH _]; [intros x Hx; apply Hin; now right|].
      split; [|intros _]; lra. }
  destruct (Hpos (skipn k expanded)) as [Hrest0 Hrest1].
  { intros it Hit. rewrite <- (firstn_skipn k expanded).
    apply in_or_app. now right. }
  split; [exact E|].
  split; [lra|].
  split.
  { intro Hk. assert (Es : skipn k expanded = [])
      by (apply skipn_all2; lia).
    rewrite Es in Hsplit. cbn [map] in Hsplit. change (sumQ []) with 0 in Hsplit.
    lra. }
  split.
  { intro Hk. assert (Hne : skipn k expanded <> []).
    { intro Es. apply (f_equal (@List.length Instance)) in Es.
      rewrite length_skipn in Es.
      change (@List.length Instance []) with 0%nat in Es. lia. }
    specialize (Hrest1 Hne). lra. }
  unfold totalBoxVolume. fold total.
  pose proof (toFixed_bound 6 total) as [H1 H2].
  assert (Ee : (1 # 2) / inject_Z (10 ^ Z.of_nat 6) == 0.0000005)
    by reflexivity.
  set (shown := toFixed 6 total) in *.
  set (e := (1 # 2) / inject_Z (10 ^ Z.of_nat 6)) in *.
  split; lra.
Qed.

(** The request carries the texts of the form as numbers and nothing else of
    a box: the unit, the rotation flag and the collapsed state of the boxes,
    like the unit and the capacity of the container, do not reach it.  Its
    six lists have one entry per box, the strategy sent is ["best_fit"]
    whatever the fit, and [rotation] is off. *)
Theorem request_ignores_units_and_rotation
        (c1 c2 : ContainerDimensions) (boxes1 boxes2 : list BoxDimensions) :
  uc_length c1 = uc_length c2 -> uc_width c1 = uc_width c2 ->
  uc_height c1 = uc_height c2 -> uc_fit c1 = uc_fit c2 ->
  Forall2 sameRequestFields boxes1 boxes2 ->
  payload Number c1 boxes1 = payload Number c2 boxes2 /\
  packing_strategy (payload Number c1 boxes1) = "best_fit" /\
  rotation (payload Number c1 boxes1) = false /\
  List.length (pl_box_name (payload Number c1 boxes1)) = List.length boxes1 /\
  List.length (pl_box_length (payload Number c1 boxes1)) = List.length boxes1 /\
  List.length (pl_box_width (payload Number c1 boxes1)) = List.length boxes1 /\
  List.length (pl_box_height (payload Number c1 boxes1)) = List.length boxes1 /\
  List.length (pl_box_weight (payload Number c1 boxes1)) = List.length boxes1 /\
  List.length (pl_box_quantity (payload Number c1 boxes1)) = List.length boxes1.
Proof.
  intros Hl Hw Hh Hf Hboxes.
  split.
  - unfold payload. rewrite Hl, Hw, Hh, Hf.
    assert (Hmap : forall (B : Type) (g : BoxDimensions -> B),
               (forall a b, sameRequestFields a b -> g a = g b) ->
               map g boxes1 = map g boxes2).
    { intros B g Hg. induction Hboxes as [|a b r1 r2 Hab _ IH];
        [reflexivity|]. cbn. now rewrite (Hg a b Hab), IH. }
    rewrite (Hmap _ (fun b => nameOrBox (ui_boxName b)))
      by (intros a b (_ & _ & _ & _ & _ & E); now rewrite E).
    rewrite (Hmap _ (fun b => numberOr Number (ui_length b) 0))
      by (intros a b (E & _); now rewrite E).
    rewrite (Hmap _ (fun b => numberOr Number (ui_width b) 0))
      by (intros a b (_ & E & _); now rewrite E).
    rewrite (Hmap _ (fun b => numberOr Number (ui_height b) 0))
      by (intros a b (_ & _ & E & _); now rewrite E).
    rewrite (Hmap _ (fun b => numberOr Number (ui_weight b) 0))
      by (intros a b (_ & _ & _ & E & _); now rewrite E).
    rewrite (Hmap _ (fun b => numberOr Number (ui_quantity b) 1))
      by (intros a b (_ & _ & _ & _ & E & _); now rewrite E).
    reflexivity.
  - unfold payload; cbn; rewrite !length_map.
    split; [now destruct (match uc_fit c1 with
                          | Some f => String.eqb f "BiggerFirst"
                          | None => false
                          end)|].
    repeat split; reflexivity.
Qed.

(** When the three texts of the container are positive numbers, the volume
    the form shows is, up to rounding to two decimals, the volume of the
    container the viewer draws. *)
Theorem container_volume_is_the_drawn_container
        (c : ContainerDimensions) (l w h : Q) :
  uc_length c <> "" -> Number (uc_length c) = Some l -> 0 < l ->
  uc_width c <> "" -> Number (uc_width c) = Some w -> 0 < w ->
  uc_height c <> "" -> Number (uc_height c) = Some h -> 0 < h ->
  let C := container (toContainerDim Number c) in
  let drawn := containerLength C * containerWidth C * containerHeight C in
  exists shown,
    containerVolume Number c = Some shown /\
    drawn - 0.005 <= shown <= drawn + 0.005.
Proof.
  intros Hl0 Hl Hlp Hw0 Hw Hwp Hh0 Hh Hhp C drawn.
  unfold containerVolume. cbv zeta.
  rewrite !numberOr_nonempty by assumption. rewrite Hl, Hw, Hh.
  cbn [convertToMetersN option_map jsMul].
  eexists. split; [reflexivity|].
  match goal with
  | |- _ <= toFixed 2 ?x <= _ =>
      pose proof (toFixed_bound 2 x) as [H1 H2];
        assert (E : drawn == x)
  end.
  { subst drawn C.
    destruct (defaulting_cases (Number (uc_length c)) (Some (uc_unit c)) 2)
      as (_ & _ & EL).
    destruct (defaulting_cases (Number (uc_width c)) (Some (uc_unit c)) 1.5)
      as (_ & _ & EW).
    destruct (defaulting_cases (Number (uc_height c)) (Some (uc_unit c)) 1.5)
      as (_ & _ & EH).
    destruct (EL l Hl Hlp) as [EL' _]. destruct (EW w Hw Hwp) as [EW' _].
    destruct (EH h Hh Hhp) as [EH' _].
    unfold container, contL, contW, contH, toContainerDim.
    cbn [containerLength containerWidth containerHeight cd_length cd_width
         cd_height cd_unit nullish].
    rewrite EL', EW', EH'. reflexivity. }
  assert (Ee : (1 # 2) / inject_Z (10 ^ Z.of_nat 2) == 0.005) by reflexivity.
  set (e := (1 # 2) / inject_Z (10 ^ Z.of_nat 2)) in *.
  match goal with
  | |- _ <= ?t <= _ => set (shown := t) in *
  end.
  match type of E with
  | _ == ?x => set (product := x) in *
  end.
  split; lra.
Qed.

End FormFigures.

(** An instance: three unit cubes in a 2 x 2 x 2 container, of which the
    layout places one. *)
Lemma total_volume_witness :
  let c := {| BoxUI.uc_length := "2"; BoxUI.uc_width := "2";
              BoxUI.uc_height := "2"; BoxUI.uc_maxCapacity := None;
              BoxUI.uc_fit := Some "best_fit"; BoxUI.uc_unit := "m" |} in
  let box := {| BoxUI.ui_length := "1"; BoxUI.ui_width := "1";
                BoxUI.ui_height := "1"; BoxUI.ui_weight := "";
                BoxUI.ui_quantity := "3"; BoxUI.ui_rotation := false;
                BoxUI.ui_collapsed := false; BoxUI.ui_unit := "m";
                BoxUI.ui_boxName := None |} in
  sumQ (map placedVolume (BoxUI.viewer sampleNumber c [box] None)) <
  fst (BoxUI.totals sampleNumber [box]).
Proof.
  intros c box.
  destruct (total_volume_bounds_the_drawn_volume sampleNumber c [box])
    as (_ & _ & _ & H & _).
  - constructor; [|constructor].
    exists 1, 1, 1, 3%Z. cbn. repeat split; try discriminate; reflexivity.
  - apply H. vm_compute. lia.
Defined.

(** An instance: the same box entered in centimetres and in metres. *)
Lemma request_ignores_units_witness :
  let c := {| BoxUI.uc_length := "3"; BoxUI.uc_width := "2";
              BoxUI.uc_height := "2"; BoxUI.uc_maxCapacity := None;
              BoxUI.uc_fit := Some "best_fit"; BoxUI.uc_unit := "m" |} in
  BoxUI.payload sampleNumber c
                [BoxUI.setField (BoxUI.newBox 1) BoxUI.FUnit "cm"] =
  BoxUI.payload sampleNumber c [BoxUI.newBox 1].
Proof.
  intro c.
  apply (request_ignores_units_and_rotation
           sampleNumber c c
           [BoxUI.setField (BoxUI.newBox 1) BoxUI.FUnit "cm"]
           [BoxUI.newBox 1]); try reflexivity.
  repeat constructor.
Defined.

(** An instance: a container of 3 x 2 x 2 metres. *)
Lemma container_volume_witness :
  exists shown,
    BoxUI.containerVolume
      sampleNumber
      {| BoxUI.uc_length := "3"; BoxUI.uc_width := "2";
         BoxUI.uc_height := "2"; BoxUI.uc_maxCapacity := None;
         BoxUI.uc_fit := None; BoxUI.uc_unit := "m" |} = Some shown /\
    12 - 0.005 <= shown <= 12 + 0.005.
Proof.
  destruct (container_volume_is_the_drawn_container
              sampleNumber
              {| BoxUI.uc_length := "3"; BoxUI.uc_width := "2";
                 BoxUI.uc_height := "2"; BoxUI.uc_maxCapacity := None;
                 BoxUI.uc_fit := None; BoxUI.uc_unit := "m" |} 3 2 2)
    as (shown & Hs & Hb); try discriminate; try reflexivity.
  exists shown. split; [exact Hs|].
  cbv zeta in Hb. vm_compute in Hb. vm_compute. exact Hb.
Defined.

Lemma toFixed_zero (digits : nat) (x : Q) :
  x == 0 -> BoxUI.toFixed digits x == 0.
Proof.
  intro E. unfold BoxUI.toFixed. cbv zeta.
  assert (Hb : Qle_bool 0 x = true) by (apply Qle_bool_iff; lra).
  rewrite Hb.
  assert (Hf : Qfloor (x * inject_Z (10 ^ Z.of_nat digits) + (1 # 2)) = 0%Z).
  { rewrite (Qfloor_comp _ (1 # 2)); [reflexivity|]. rewrite E. ring. }
  rewrite Hf. unfold Qdiv. change (inject_Z 0) with 0. ring.
Qed.

(** While a dimension of the container is left empty, the form shows a
    volume of 0 and the viewer draws the container with the default for that
    dimension: the figure is not the volume of what is drawn.  Stated for the
    length, with [Number("") = 0] as the runtime has it. *)
Theorem empty_length_shows_zero_volume
        (Number : string -> JsNumber) (c : BoxUI.ContainerDimensions)
        (w h : Q) :
  Number "" = Some 0 ->
  BoxUI.uc_length c = "" ->
  BoxUI.numberOr Number (BoxUI.uc_width c) 0 = Some w ->
  BoxUI.numberOr Number (BoxUI.uc_height c) 0 = Some h ->
  (exists shown, BoxUI.containerVolume Number c = Some shown /\ shown == 0) /\
  containerLength (container (BoxUI.toContainerDim Number c)) = 2 /\
  0 < containerLength (container (BoxUI.toContainerDim Number c))
      * containerWidth (container (BoxUI.toContainerDim Number c))
      * containerHeight (container (BoxUI.toContainerDim Number c)).
Proof.
  intros H0 Hl Hw Hh. split; [|split].
  - unfold BoxUI.containerVolume. cbv zeta. rewrite Hl, Hw, Hh.
    unfold BoxUI.numberOr. cbn [String.eqb BoxUI.convertToMetersN option_map
                                  BoxUI.jsMul].
    eexists. split; [reflexivity|]. apply toFixed_zero.
    assert (E : convertToMeters 0 (Some (BoxUI.uc_unit c)) == 0).
    { unfold convertToMeters.
      repeat match goal with
             | |- context [String.eqb ?a ?b] => destruct (String.eqb a b)
             end; try reflexivity; unfold Qdiv; ring. }
    rewrite E. ring.
  - destruct (defaulting_cases (Number (BoxUI.uc_length c))
                               (Some (BoxUI.uc_unit c)) 2) as (_ & Hz & _).
    rewrite Hl, H0 in Hz. specialize (Hz 0 eq_refl (Qle_refl 0)).
    unfold container, contL, BoxUI.toContainerDim.
    cbn [containerLength cd_length cd_unit nullish]. rewrite Hl, H0.
    exact Hz.
  - pose proof (container_dims_pos (BoxUI.toContainerDim Number c))
      as (HL & HW & HH).
    apply Qmult_lt_0_compat; [apply Qmult_lt_0_compat|]; assumption.
Qed.

(** An instance: the form as it starts, with the three texts empty. *)
Lemma empty_length_witness :
  containerLength
    (container
       (BoxUI.toContainerDim
          sampleNumber
          {| BoxUI.uc_length := ""; BoxUI.uc_width := ""; BoxUI.uc_height := "";
             BoxUI.uc_maxCapacity := Some ""; BoxUI.uc_fit := Some "best_fit";
             BoxUI.uc_unit := "m" |})) = 2.
Proof.
  apply (empty_length_shows_zero_volume
           sampleNumber
           {| BoxUI.uc_length := ""; BoxUI.uc_width := ""; BoxUI.uc_height := "";
              BoxUI.uc_maxCapacity := Some ""; BoxUI.uc_fit := Some "best_fit";
              BoxUI.uc_unit := "m" |} 0 0); reflexivity.
Defined.

(** ** Containment of the validated placement of positive items *)





